(** * pmdapi: a client for the PublishMyData "drafter" service

    A shallow embedding of [src/__init__.py] (classes [PublishMyData] and
    [Draftset]) and the properties of its request construction, argument
    validation and response interpretation.

    The program is effectful Python: it calls [requests.*], opens a file and
    raises exceptions.  It is modelled in an exception-and-log monad [io]:
    a computation reads the outside world (the server, the file system, the
    locale), appends the effects it performs to a log and either returns a
    value or raises. *)

From Stdlib Require Import Strings.String Strings.Ascii Strings.Byte List Bool NArith ZArith Lia.
From ExtLib Require Import Structures.Monad Structures.MonadExc.
Import ListNotations.
Import MonadNotation.
Local Open Scope string_scope.
Local Open Scope monad_scope.

(** ** Python values *)

(** The values that flow through the client.  A Python [str] is represented
    by the Rocq string of its UTF-8 encoding.  [PyOther] stands for an object
    of any other type (number, list, dict, ...): the client only ever formats
    such a value, tests its truth value or passes it on, so it is kept as
    what [str()] and [bool()] give on it. *)
Inductive pyval : Type :=
| PyNone
| PyBool (b : bool)
| PyStr (s : string)
| PyOther (text : string) (truth : bool).

(** [bool(v)] *)
Definition truthy (v : pyval) : bool :=
  match v with
  | PyNone => false
  | PyBool b => b
  | PyStr s => negb (s =? "")
  | PyOther _ t => t
  end.

(** [str(v)], as used by f-string interpolation *)
Definition py_str (v : pyval) : string :=
  match v with
  | PyNone => "None"
  | PyBool true => "True"
  | PyBool false => "False"
  | PyStr s => s
  | PyOther text _ => text
  end.

(** [a or b] *)
Definition py_or (a b : pyval) : pyval := if truthy a then a else b.

(** [isinstance(v, str)] and [isinstance(v, bool)] *)
Definition is_str (v : pyval) : bool :=
  match v with PyStr _ => true | _ => false end.

Definition is_bool (v : pyval) : bool :=
  match v with PyBool _ => true | _ => false end.

(** [v is None] *)
Definition is_none (v : pyval) : bool :=
  match v with PyNone => true | _ => false end.

(** [v in (c1, ..., cn)] for a tuple of string literals and [None]; in the
    tuple, [Some s] is the literal [s] and [None] is Python's [None]. *)
Definition py_in (v : pyval) (tup : list (option string)) : bool :=
  existsb (fun c =>
             match c, v with
             | Some s, PyStr s' => s =? s'
             | None, PyNone => true
             | _, _ => false
             end) tup.

(** A dict literal, in source order. *)
Definition pydict := list (string * pyval).

Fixpoint dict_get {A : Type} (k : string) (d : list (string * A)) : option A :=
  match d with
  | [] => None
  | (k', v) :: rest => if k =? k' then Some v else dict_get k rest
  end.

(** What [response.json()] returns.  Inside an object the field values are
    [pyval]s (a nested container is a [PyOther]); at the top level and as an
    array element, [JAtom] is a scalar. *)
#[warnings="-register-all"]
Inductive json : Type :=
| JAtom (v : pyval)
| JArray (items : list json)
| JObject (fields : pydict).

(** ** Text and bytes *)

Definition bytes := list byte.

(** One step of the UTF-8 validity automaton.  The state is the number of
    continuation bytes still expected and the range allowed for the next one;
    [None] is the error state. *)
Definition utf8_step (st : option (nat * N * N)) (b : byte)
  : option (nat * N * N) :=
  let n := Byte.to_N b in
  match st with
  | None => None
  | Some (O, _, _) =>
      if n <=? 127 then Some (O, 128, 191)
      else if (194 <=? n) && (n <=? 223) then Some (1%nat, 128, 191)
      else if n =? 224 then Some (2%nat, 160, 191)
      else if n =? 237 then Some (2%nat, 128, 159)
      else if (225 <=? n) && (n <=? 239) then Some (2%nat, 128, 191)
      else if n =? 240 then Some (3%nat, 144, 191)
      else if n =? 244 then Some (3%nat, 128, 143)
      else if (241 <=? n) && (n <=? 243) then Some (3%nat, 128, 191)
      else None
  | Some (S k, lo, hi) =>
      if (lo <=? n) && (n <=? hi) then Some (k, 128, 191) else None
  end%N.

Definition utf8_valid (bs : bytes) : bool :=
  match fold_left utf8_step bs (Some (O, 128%N, 191%N)) with
  | Some (O, _, _) => true
  | _ => false
  end.

(** [str(bs, "utf-8")]: [None] is [UnicodeDecodeError]. *)
Definition decode_utf8 (bs : bytes) : option string :=
  if utf8_valid bs then Some (string_of_list_byte bs) else None.

(** Decoding as ISO-8859-1 never fails; a byte above 127 is a code point that
    takes two bytes in the UTF-8 representation of the resulting [str]. *)
Definition latin1_char (b : byte) : bytes :=
  let n := Byte.to_N b in
  if (n <? 128)%N then [b]
  else
    match Byte.of_N (192 + n / 64), Byte.of_N (128 + n mod 64) with
    | Some hi, Some lo => [hi; lo]
    | _, _ => [b]
    end.

Definition decode_latin1 (bs : bytes) : string :=
  string_of_list_byte (flat_map latin1_char bs).

(** The preferred encoding of the locale, which [open] uses in text mode. *)
Inductive text_encoding : Type := UTF8 | Latin1.

Definition decode (enc : text_encoding) (bs : bytes) : option string :=
  match enc with
  | UTF8 => decode_utf8 bs
  | Latin1 => Some (decode_latin1 bs)
  end.

Definition CR : ascii := ascii_of_nat 13.
Definition LF : ascii := ascii_of_nat 10.

(** Text mode with the default [newline=None]: on reading, ["\r\n"] and a
    lone ["\r"] become ["\n"]. *)
Fixpoint universal_newlines (s : string) : string :=
  match s with
  | EmptyString => EmptyString
  | String c rest =>
      if Ascii.eqb c CR then
        match rest with
        | String c' rest' =>
            if Ascii.eqb c' LF then String LF (universal_newlines rest')
            else String LF (universal_newlines rest)
        | EmptyString => String LF (universal_newlines rest)
        end
      else String c (universal_newlines rest)
  end.

(** [s.split(sep)] for a one-character separator; with no [maxsplit],
    [rsplit] gives the same list. *)
Fixpoint split (sep : ascii) (s : string) : list string :=
  match s with
  | EmptyString => [EmptyString]
  | String c rest =>
      if Ascii.eqb c sep then EmptyString :: split sep rest
      else
        match split sep rest with
        | h :: t => String c h :: t
        | [] => [String c EmptyString]
        end
  end.

Definition rsplit (sep : ascii) (s : string) : list string := split sep s.

(** [l[-1]] on a list of strings: [None] is [IndexError]. *)
Fixpoint last_item (l : list string) : option string :=
  match l with
  | [] => None
  | [x] => Some x
  | _ :: rest => last_item rest
  end.

(** ASCII lower-casing, for the case-insensitive header mapping. *)
Definition lower_ascii (c : ascii) : ascii :=
  let n := nat_of_ascii c in
  if (65 <=? n)%nat && (n <=? 90)%nat then ascii_of_nat (n + 32) else c.

Fixpoint lower (s : string) : string :=
  match s with
  | EmptyString => EmptyString
  | String c rest => String (lower_ascii c) (lower rest)
  end.

(** ** HTTP messages *)

Inductive http_method : Type := GET | POST | PUT | DELETE.

(** The [data=] argument of a [requests] call: absent, a dict (sent
    form-encoded in the request body) or a [str]. *)
Inductive payload : Type :=
| NoData
| FormData (d : pydict)
| TextData (s : string).

(** A call [requests.<method>(url, headers=, params=, data=, json=,
    allow_redirects=)], with the defaults of [requests] for what the call
    leaves out. *)
Record request : Type := mkRequest {
  req_method : http_method;
  req_url : string;
  req_headers : pydict;
  req_params : pydict;
  req_data : payload;
  req_json : option pydict;
  req_allow_redirects : bool
}.

(** What the client reads of a [requests.Response]: [status_code],
    [headers], [content] and the result of [json()] ([None] when the body is
    not JSON and [json()] raises). *)
Record response : Type := mkResponse {
  status_code : Z;
  headers : list (string * string);
  content : bytes;
  json_body : option json
}.

(** [response.headers[name]]: the mapping is case-insensitive; the list
    has one entry for each header name. *)
Fixpoint headers_get (name : string) (hs : list (string * string))
  : option string :=
  match hs with
  | [] => None
  | (k, v) :: rest =>
      if lower k =? lower name then Some v else headers_get name rest
  end.

(** ** The outside world and the monad *)

(** Effects the client performs, newest first in a log. *)
Inductive event : Type :=
| Net (r : request)
| Open (path : string).

Definition log := list event.

(** The server answers a request knowing everything that happened before
    ([None]: the transport fails); the file system maps a path to the bytes
    of the file ([None]: it cannot be opened). *)
Record world : Type := mkWorld {
  server : log -> request -> option response;
  files : string -> option bytes;
  locale : text_encoding
}.

Inductive exn : Type :=
| AssertionError
| RequestException (message : string)
| KeyError (key : string)
| TypeError
| IndexError
| UnicodeDecodeError
| JSONDecodeError
| ConnectionError
| OSError.

Definition io (A : Type) : Type := world -> log -> (exn + A) * log.

#[global] Instance Monad_io : Monad io := {
  ret := fun _ a _ t => (inr a, t);
  bind := fun _ _ m k w t =>
            match m w t with
            | (inr a, t') => k a w t'
            | (inl e, t') => (inl e, t')
            end
}.

#[global] Instance Exc_io : MonadExc exn io := {
  raise := fun _ e _ t => (inl e, t);
  catch := fun _ m h w t =>
             match m w t with
             | (inl e, t') => h e w t'
             | r => r
             end
}.

(** [assert b] *)
Definition assert (b : bool) : io unit :=
  if b then ret tt else raise AssertionError.

(** Lifting a lookup that raises when it finds nothing. *)
Definition or_raise {A : Type} (e : exn) (o : option A) : io A :=
  match o with
  | Some a => ret a
  | None => raise e
  end.

(** [requests.request(...)]: the call is logged, then answered. *)
Definition send (r : request) : io response :=
  fun w t =>
    match server w t r with
    | Some resp => (inr resp, Net r :: t)
    | None => (inl ConnectionError, Net r :: t)
    end.

(** [open(path).read()]: text mode, locale encoding, universal newlines. *)
Definition open_read (path : string) : io string :=
  fun w t =>
    match files w path with
    | None => (inl OSError, Open path :: t)
    | Some bs =>
        match decode (locale w) bs with
        | None => (inl UnicodeDecodeError, Open path :: t)
        | Some s => (inr (universal_newlines s), Open path :: t)
        end
    end.

(** [str(response.content, "utf-8")] *)
Definition content_text (r : response) : io string :=
  or_raise UnicodeDecodeError (decode_utf8 (content r)).

(** [response.json()] *)
Definition response_json (r : response) : io json :=
  or_raise JSONDecodeError (json_body r).

(** [d[k]] on a value that came out of [json()]: only a dict can be
    subscripted with a string. *)
Definition getitem (d : json) (k : string) : io pyval :=
  match d with
  | JObject fields => or_raise (KeyError k) (dict_get k fields)
  | _ => raise TypeError
  end.

(** [d.get(k, None)], reached only after [d[...]] succeeded, so on a dict. *)
Definition get_or_none (d : json) (k : string) : pyval :=
  match d with
  | JObject fields =>
      match dict_get k fields with Some v => v | None => PyNone end
  | _ => PyNone
  end.

(** A [str] is iterated code point by code point: a byte in 128..191
    continues the code point before it. *)
Definition is_continuation (c : ascii) : bool :=
  let n := nat_of_ascii c in (128 <=? n)%nat && (n <=? 191)%nat.

Fixpoint code_points (s : string) : list string :=
  match s with
  | EmptyString => []
  | String c rest =>
      let l := code_points rest in
      match rest, l with
      | String c' _, h :: t =>
          if is_continuation c' then String c h :: t
          else String c EmptyString :: l
      | _, _ => String c EmptyString :: l
      end
  end.

(** [for d in data]: a list gives its items, a dict its keys, a [str] its
    characters; nothing else is iterable. *)
Definition py_iter (data : json) : io (list json) :=
  match data with
  | JArray items => ret items
  | JObject fields => ret (map (fun kv => JAtom (PyStr (fst kv))) fields)
  | JAtom (PyStr s) => ret (map (fun c => JAtom (PyStr c)) (code_points s))
  | JAtom _ => raise TypeError
  end.

(** [[f(d) for d in items]] *)
Fixpoint for_each {A B : Type} (f : A -> io B) (items : list A)
  : io (list B) :=
  match items with
  | [] => ret []
  | d :: rest =>
      x <- f d ;;
      xs <- for_each f rest ;;
      ret (x :: xs)
  end.

(** ** The session: class [PublishMyData] *)

Definition AUTH0_URL : string :=
  "https://swirrl-staging.eu.auth0.com/oauth/token".

Definition DEFAULT_BASE_URL : string :=
  "https://cogs-staging-drafter.publishmydata.com/v1/".

(** [access_token] is the attribute that [get_token] sets; the dataclass
    runs [get_token] from [__post_init__], so no session exists without it. *)
Record PublishMyData : Type := mkPublishMyData {
  client_id : pyval;
  client_secret : pyval;
  base_url : pyval;
  access_token : pyval
}.

(** [self.access_token = token] *)
Definition set_access_token (self : PublishMyData) (token : pyval)
  : PublishMyData :=
  {| client_id := self.(client_id);
     client_secret := self.(client_secret);
     base_url := self.(base_url);
     access_token := token |}.

Record Draftset : Type := mkDraftset {
  _requester : PublishMyData;
  id : pyval;
  type : pyval;
  created_at : pyval;
  updated_at : pyval;
  changes : pyval;
  display_name : pyval;
  current_owner : pyval;
  submitted_by : pyval;
  claim_role : pyval;
  claim_user : pyval;
  description : pyval
}.

(** [Draftset.__post_init__] *)
Definition Draftset_post_init (self : Draftset) : io unit :=
  assert (py_in (type self) [Some "Endpoint"; Some "Draftset"]).

(** The generated [__init__]: the fields are stored, then [__post_init__]
    runs. *)
Definition Draftset_init (fields : Draftset) : io Draftset :=
  Draftset_post_init fields ;;
  ret fields.

(** The keyword arguments that [get_draftsets] and [get_draftset] both pass
    to [Draftset], evaluated left to right. *)
Definition Draftset_of_json (self : PublishMyData) (d : json) : io Draftset :=
  v_id <- getitem d "id" ;;
  v_type <- getitem d "type" ;;
  v_created_at <- getitem d "created-at" ;;
  v_updated_at <- getitem d "updated-at" ;;
  v_changes <- getitem d "changes" ;;
  Draftset_init {|
    _requester := self;
    id := v_id;
    type := v_type;
    created_at := v_created_at;
    updated_at := v_updated_at;
    changes := v_changes;
    display_name := get_or_none d "display-name";
    current_owner := get_or_none d "current-owner";
    submitted_by := get_or_none d "submitted-by";
    claim_role := get_or_none d "claim-role";
    claim_user := get_or_none d "claim-user";
    description := get_or_none d "description"
  |}.

(** The two headers every call after authentication carries. *)
Definition auth_headers (token : pyval) : pydict :=
  [("Accept", PyStr "application/json");
   ("Authorization", PyStr ("Bearer " ++ py_str token))].

(** [raise RequestException(str(response.content, "utf-8"))] *)
Definition raise_for {A : Type} (r : response) : io A :=
  message <- content_text r ;;
  raise (RequestException message).

Definition get_token_request
  (client_id client_secret audience grant_type : pyval) : request :=
  {| req_method := POST;
     req_url := AUTH0_URL;
     req_headers := [("content-type", PyStr "application/json")];
     req_params := [];
     req_data := NoData;
     req_json := Some [("client_id", client_id);
                       ("client_secret", client_secret);
                       ("audience", audience);
                       ("grant_type", grant_type)];
     req_allow_redirects := true |}.

(** [get_token]: the method assigns [self.access_token]; here it returns the
    session with the attribute set. *)
Definition get_token (self : PublishMyData)
  (client_id client_secret audience grant_type : pyval) : io PublishMyData :=
  response <- send (get_token_request client_id client_secret
                                      audience grant_type) ;;
  if (status_code response =? 200)%Z then
    data <- response_json response ;;
    token <- getitem data "access_token" ;;
    ret (set_access_token self token)
  else raise_for response.

(** [PublishMyData(client_id, client_secret, base_url)]: the generated
    [__init__] followed by [__post_init__]. *)
Definition PublishMyData_init (client_id client_secret base_url : pyval)
  : io PublishMyData :=
  get_token {| client_id := client_id;
               client_secret := client_secret;
               base_url := base_url;
               access_token := PyNone |}
            client_id client_secret
            (PyStr "https://pmd") (PyStr "client_credentials").

Definition get_draftsets_request (self : PublishMyData)
  (include union_with_live : pyval) : request :=
  {| req_method := GET;
     req_url := "https://cogs-staging-drafter.publishmydata.com/v1/draftsets";
     req_headers := auth_headers self.(access_token);
     req_params := [];
     req_data := FormData [("incude", include);
                           ("union-with-live", union_with_live)];
     req_json := None;
     req_allow_redirects := true |}.

Definition get_draftsets (self : PublishMyData)
  (include union_with_live : pyval) : io (list Draftset) :=
  assert (py_in include [Some "owned"; Some "claimable"; Some "all"]) ;;
  assert (is_bool union_with_live) ;;
  response <- send (get_draftsets_request self include union_with_live) ;;
  if (status_code response =? 200)%Z then
    data <- response_json response ;;
    items <- py_iter data ;;
    for_each (Draftset_of_json self) items
  else raise_for response.

Definition get_draftset_request (self : PublishMyData)
  (id union_with_live : pyval) : request :=
  {| req_method := GET;
     req_url := "https://cogs-staging-drafter.publishmydata.com/v1/draftset/"
                ++ py_str id;
     req_headers := auth_headers self.(access_token);
     req_params := [];
     req_data := FormData [("union-with-live", union_with_live)];
     req_json := None;
     req_allow_redirects := true |}.

Definition get_draftset (self : PublishMyData)
  (id union_with_live : pyval) : io Draftset :=
  assert (is_bool union_with_live) ;;
  response <- send (get_draftset_request self id union_with_live) ;;
  if (status_code response =? 200)%Z then
    data <- response_json response ;;
    Draftset_of_json self data
  else raise_for response.

Definition create_draftset_request (self : PublishMyData)
  (display_name description union_with_live : pyval) : request :=
  {| req_method := POST;
     req_url := "https://cogs-staging-drafter.publishmydata.com/v1/draftsets";
     req_headers := auth_headers self.(access_token);
     req_params := [];
     req_data := FormData [("display-name", display_name);
                           ("description", description);
                           ("union-with-live", union_with_live)];
     req_json := None;
     req_allow_redirects := false |}.

Definition create_draftset (self : PublishMyData)
  (display_name description union_with_live : pyval) : io Draftset :=
  response <- send (create_draftset_request self display_name description
                                            union_with_live) ;;
  if (status_code response =? 303)%Z then
    location <- or_raise (KeyError "location")
                         (headers_get "location" (headers response)) ;;
    draftset_id <- or_raise IndexError (last_item (rsplit "/"%char location)) ;;
    get_draftset self (PyStr draftset_id) (PyBool false)
  else raise_for response.

(** ** The handle: class [Draftset] *)

Definition draftset_url (self : Draftset) (suffix : string) : string :=
  "https://cogs-staging-drafter.publishmydata.com/v1/draftset/"
  ++ py_str self.(id) ++ suffix.

Definition delete_request (self : Draftset) (metadata : pyval) : request :=
  {| req_method := DELETE;
     req_url := draftset_url self "";
     req_headers := auth_headers self.(_requester).(access_token);
     req_params := [];
     req_data := FormData [("metadata", metadata)];
     req_json := None;
     req_allow_redirects := true |}.

Definition delete (self : Draftset) (metadata : pyval) : io bool :=
  response <- send (delete_request self metadata) ;;
  if (status_code response =? 202)%Z then ret true
  else raise_for response.

Definition claim_request (self : Draftset) : request :=
  {| req_method := POST;
     req_url := draftset_url self "/claim";
     req_headers := auth_headers self.(_requester).(access_token);
     req_params := [];
     req_data := NoData;
     req_json := None;
     req_allow_redirects := true |}.

Definition claim (self : Draftset) : io Draftset :=
  response <- send (claim_request self) ;;
  if (status_code response =? 200)%Z then
    get_draftset self.(_requester) self.(id) (PyBool false)
  else raise_for response.

Definition submit_to_request (self : Draftset) (role user : pyval)
  : request :=
  {| req_method := POST;
     req_url := draftset_url self "/submit-to";
     req_headers := auth_headers self.(_requester).(access_token);
     req_params := [];
     req_data := NoData;
     req_json := Some [("role", role); ("user", user)];
     req_allow_redirects := true |}.

Definition submit_to (self : Draftset) (role user : pyval) : io Draftset :=
  assert (py_in role [Some "editor"; Some "publisher"; Some "manager";
                      None]) ;;
  assert (is_str user || is_none user) ;;
  assert (xorb (truthy role) (truthy user)) ;;
  response <- send (submit_to_request self role user) ;;
  if (status_code response =? 200)%Z then
    get_draftset self.(_requester) self.(id) (PyBool false)
  else raise_for response.

Definition publish_request (self : Draftset) (metadata : pyval) : request :=
  {| req_method := POST;
     req_url := draftset_url self "/publish";
     req_headers := auth_headers self.(_requester).(access_token);
     req_params := [];
     req_data := FormData [("metadata", metadata)];
     req_json := None;
     req_allow_redirects := true |}.

(** The response is dropped and the method returns [None]. *)
Definition publish (self : Draftset) (metadata : pyval) : io unit :=
  _ <- send (publish_request self metadata) ;;
  ret tt.

Definition extension_map : pydict :=
  [(".trig", PyStr "application/trig");
   (".ttl", PyStr "text/turtle");
   (".nq", PyStr "application/n-quads");
   (".trix", PyStr "application/trix");
   (".nt", PyStr "application/n-triples");
   (".rdf", PyStr "application/rdf+xml")].

(** [extension_map[extension]]: only a [str] can be among the keys;
    [None] is [KeyError]. *)
Definition extension_lookup (extension : pyval) : option pyval :=
  match extension with
  | PyStr e => dict_get e extension_map
  | _ => None
  end.

Definition extension_map_getitem (extension : pyval) : io pyval :=
  or_raise (KeyError (py_str extension)) (extension_lookup extension).

Definition append_data_request (self : Draftset)
  (content_type graph metadata content_encoding : pyval) (rdf : string)
  : request :=
  {| req_method := PUT;
     req_url := draftset_url self "/data";
     req_headers :=
       [("Content-Type", content_type);
        ("Content-Encoding", content_encoding);
        ("Authorization",
          PyStr ("Bearer " ++ py_str self.(_requester).(access_token)))];
     req_params := [("graph", graph); ("metadata", metadata)];
     req_data := TextData rdf;
     req_json := None;
     req_allow_redirects := true |}.

Definition append_data (self : Draftset) (filepath : string)
  (extension content_type graph metadata content_encoding : pyval)
  : io unit :=
  assert (truthy (py_or extension content_type)) ;;
  assert (py_in extension
            [Some ".trig"; Some ".ttl"; Some ".nq"; Some ".trix";
             Some ".nt"; Some ".rdf"; None]) ;;
  assert (py_in content_type
            [Some "application/trig"; Some "text/turtle";
             Some "application/n-quads"; Some "application/trix";
             Some "application/n-triples"; Some "application/rdf+xml";
             None]) ;;
  content_type <- (if truthy extension then extension_map_getitem extension
                   else ret content_type) ;;
  (if py_in content_type
        [Some "text/turtle"; Some "application/trix";
         Some "application/n-triples"; Some "application/rdf+xml"]
   then assert (truthy graph) else ret tt) ;;
  assert (py_in content_encoding [Some "gzip"; Some "x-gzip"; None]) ;;
  rdf <- open_read filepath ;;
  _ <- send (append_data_request self content_type graph metadata
                                 content_encoding rdf) ;;
  ret tt.

(** ** Running a computation *)

(** The outcome and the effects of a computation started on an empty log,
    the effects in the order they happened. *)
Definition run {A : Type} (m : io A) (w : world) : (exn + A) * list event :=
  let (r, t) := m w [] in (r, rev t).

(** ** Sample worlds and objects, for concrete runs *)

Definition ok_response : response :=
  {| status_code := 200; headers := []; content := []; json_body := None |}.

(** A world whose server answers 200 with an empty body to everything and
    whose files are all empty. *)
Definition quiet_world : world :=
  {| server := fun _ _ => Some ok_response;
     files := fun _ => Some [];
     locale := UTF8 |}.

Definition sample_session : PublishMyData :=
  {| client_id := PyStr "id";
     client_secret := PyStr "secret";
     base_url := PyStr DEFAULT_BASE_URL;
     access_token := PyStr "token" |}.

Definition sample_draftset : Draftset :=
  {| _requester := sample_session;
     id := PyStr "abc-123";
     type := PyStr "Draftset";
     created_at := PyStr "2020-01-01T00:00:00Z";
     updated_at := PyStr "2020-01-01T00:00:00Z";
     changes := PyOther "{}" false;
     display_name := PyNone;
     current_owner := PyNone;
     submitted_by := PyNone;
     claim_role := PyNone;
     claim_user := PyNone;
     description := PyNone |}.

(** ** How computations treat the log *)

(** A computation that raises [e] before it performs any effect. *)
Definition fails_before_io {A : Type} (m : io A) (e : exn)
  (w : world) (t : log) : Prop :=
  m w t = (inl e, t).

(** A computation whose first effect is [ev]. *)
Definition first_effect {A : Type} (m : io A) (ev : event)
  (w : world) (t : log) : Prop :=
  exists later, snd (m w t) = (later ++ ev :: t)%list.

(** Computations only ever add to the log. *)
Definition extends_log {A : Type} (m : io A) : Prop :=
  forall w t, exists later, snd (m w t) = (later ++ t)%list.

(** Computations without effects. *)
Definition keeps_log {A : Type} (m : io A) : Prop :=
  forall w t, snd (m w t) = t.

(** What a value in a tuple of literals is. *)
Definition literal (c : option string) : pyval :=
  match c with
  | Some s => PyStr s
  | None => PyNone
  end.

(** The values of [type] that [Draftset.__post_init__] lets through. *)
Definition valid_type (v : pyval) : Prop :=
  v = PyStr "Endpoint" \/ v = PyStr "Draftset".

(** A record whose [type] is not one the constructor knows. *)
Definition unknown_draftset : Draftset :=
  {| _requester := sample_session;
     id := PyStr "abc-123";
     type := PyStr "Unknown";
     created_at := PyStr "2020-01-01T00:00:00Z";
     updated_at := PyStr "2020-01-01T00:00:00Z";
     changes := PyOther "{}" false;
     display_name := PyNone;
     current_owner := PyNone;
     submitted_by := PyNone;
     claim_role := PyNone;
     claim_user := PyNone;
     description := PyNone |}.

(** The roles [submit_to] accepts, [None] among them. *)
Definition submit_to_roles : list (option string) :=
  [Some "editor"; Some "publisher"; Some "manager"; None].

(** An argument counts for the exclusive-or of [submit_to] when its truth
    value is [True]: neither [None] nor the empty string. *)
Definition supplied (v : pyval) : Prop := v <> PyNone /\ v <> PyStr "".

(** The tuples [append_data] tests its arguments against. *)
Definition extensions : list (option string) :=
  [Some ".trig"; Some ".ttl"; Some ".nq"; Some ".trix"; Some ".nt";
   Some ".rdf"; None].

Definition content_types : list (option string) :=
  [Some "application/trig"; Some "text/turtle"; Some "application/n-quads";
   Some "application/trix"; Some "application/n-triples";
   Some "application/rdf+xml"; None].

Definition triple_types : list (option string) :=
  [Some "text/turtle"; Some "application/trix"; Some "application/n-triples";
   Some "application/rdf+xml"].

Definition quad_types : list (option string) :=
  [Some "application/trig"; Some "application/n-quads"].

Definition content_encodings : list (option string) :=
  [Some "gzip"; Some "x-gzip"; None].

(** What [content_type] holds once [append_data] has looked at
    [extension] ([None]: the extension is not in the table). *)
Definition resolved_content_type (extension content_type : pyval)
  : option pyval :=
  if truthy extension then extension_lookup extension else Some content_type.

(** What [append_data] does once its checks are behind it. *)
Definition upload (self : Draftset) (filepath : string)
  (content_type graph metadata content_encoding : pyval) : io unit :=
  rdf <- open_read filepath ;;
  _ <- send (append_data_request self content_type graph metadata
                                 content_encoding rdf) ;;
  ret tt.

(** A file with a Windows line ending, and one that starts like a gzip
    stream. *)
Definition crlf_bytes : bytes := [x61; x0d; x0a; x62].

Definition gzip_bytes : bytes := [x1f; x8b; x08; x00].

Definition lf_text : string := String "a" (String LF (String "b" "")).

Definition file_world (contents : bytes) (enc : text_encoding) : world :=
  {| server := fun _ _ => Some ok_response;
     files := fun path => if path =? "data.trig" then Some contents else None;
     locale := enc |}.

(** Whether a character occurs in a string. *)
Fixpoint has_char (c : ascii) (s : string) : bool :=
  match s with
  | EmptyString => false
  | String c' rest => Ascii.eqb c' c || has_char c rest
  end.

(** A server error whose body is not text, and a world that answers every
    request with it. *)
Definition binary_error : response :=
  {| status_code := 500; headers := []; content := [xff];
     json_body := None |}.

Definition failing_world : world :=
  {| server := fun _ _ => Some binary_error;
     files := fun _ => None;
     locale := UTF8 |}.

(** A world that answers a POST with a redirect to a new draftset and a
    GET with the record of that draftset. *)
Definition see_other : response :=
  {| status_code := 303;
     headers :=
       [("Location",
         "https://cogs-staging-drafter.publishmydata.com/v1/draftset/abc-123")];
     content := [];
     json_body := None |}.

Definition draftset_record : response :=
  {| status_code := 200;
     headers := [("Content-Type", "application/json")];
     content := [];
     json_body :=
       Some (JObject [("id", PyStr "abc-123");
                      ("type", PyStr "Draftset");
                      ("created-at", PyStr "2020-01-01T00:00:00Z");
                      ("updated-at", PyStr "2020-01-01T00:00:00Z");
                      ("changes", PyOther "{}" false)]) |}.

Definition creating_world : world :=
  {| server := fun _ r =>
                 match req_method r with
                 | POST => Some see_other
                 | _ => Some draftset_record
                 end;
     files := fun _ => None;
     locale := UTF8 |}.

(** Two sessions that differ at most in [base_url], and two handles that
    differ at most in the [base_url] of their session. *)
Definition same_session (s1 s2 : PublishMyData) : Prop :=
  s1.(client_id) = s2.(client_id)
  /\ s1.(client_secret) = s2.(client_secret)
  /\ s1.(access_token) = s2.(access_token).

Definition same_handle (d1 d2 : Draftset) : Prop :=
  same_session d1.(_requester) d2.(_requester)
  /\ d1.(id) = d2.(id)
  /\ d1.(type) = d2.(type)
  /\ d1.(created_at) = d2.(created_at)
  /\ d1.(updated_at) = d2.(updated_at)
  /\ d1.(changes) = d2.(changes)
  /\ d1.(display_name) = d2.(display_name)
  /\ d1.(current_owner) = d2.(current_owner)
  /\ d1.(submitted_by) = d2.(submitted_by)
  /\ d1.(claim_role) = d2.(claim_role)
  /\ d1.(claim_user) = d2.(claim_user)
  /\ d1.(description) = d2.(description).

(** Two runs that made the same effects and ended alike: with the same
    exception, or with results related by [R]. *)
Definition same_outcome {A : Type} (R : A -> A -> Prop)
  (o1 o2 : (exn + A) * log) : Prop :=
  snd o1 = snd o2
  /\ match fst o1, fst o2 with
     | inl e1, inl e2 => e1 = e2
     | inr a1, inr a2 => R a1 a2
     | _, _ => False
     end.

(** The same operation on two sessions, or on two handles. *)
Definition base_url_blind {A : Type} (R : A -> A -> Prop) (m1 m2 : io A)
  : Prop :=
  forall w t, same_outcome R (m1 w t) (m2 w t).

(** A session like [sample_session] on another base URL, and a handle of
    it. *)
Definition other_session : PublishMyData :=
  {| client_id := PyStr "id";
     client_secret := PyStr "secret";
     base_url := PyStr "http://localhost:3001/v1/";
     access_token := PyStr "token" |}.

Definition other_draftset : Draftset :=
  {| _requester := other_session;
     id := PyStr "abc-123";
     type := PyStr "Draftset";
     created_at := PyStr "2020-01-01T00:00:00Z";
     updated_at := PyStr "2020-01-01T00:00:00Z";
     changes := PyOther "{}" false;
     display_name := PyNone;
     current_owner := PyNone;
     submitted_by := PyNone;
     claim_role := PyNone;
     claim_user := PyNone;
     description := PyNone |}.

(** A redirect that does not say where to, and a world that answers
    every request with it. *)
Definition bare_see_other : response :=
  {| status_code := 303; headers := []; content := []; json_body := None |}.

Definition lost_world : world :=
  {| server := fun _ _ => Some bare_see_other;
     files := fun _ => None;
     locale := UTF8 |}.

(** The keys [Draftset_of_json] subscripts its record with, in the order it
    does, and the first of them that a record lacks. *)
Definition required_keys : list string :=
  ["id"; "type"; "created-at"; "updated-at"; "changes"].

Definition first_missing (fields : pydict) : option string :=
  find (fun k => match dict_get k fields with Some _ => false | None => true end)
       required_keys.

(** The handle that [Draftset_of_json] passes to the constructor. *)
Definition record_fields (self : PublishMyData) (d : json) (fields : pydict)
  : Draftset :=
  {| _requester := self;
     id := match dict_get "id" fields with Some v => v | None => PyNone end;
     type := match dict_get "type" fields with Some v => v | None => PyNone end;
     created_at :=
       match dict_get "created-at" fields with Some v => v | None => PyNone end;
     updated_at :=
       match dict_get "updated-at" fields with Some v => v | None => PyNone end;
     changes :=
       match dict_get "changes" fields with Some v => v | None => PyNone end;
     display_name := get_or_none d "display-name";
     current_owner := get_or_none d "current-owner";
     submitted_by := get_or_none d "submitted-by";
     claim_role := get_or_none d "claim-role";
     claim_user := get_or_none d "claim-user";
     description := get_or_none d "description" |}.

(** A token endpoint that grants a token, and one that refuses. *)
Definition token_response : response :=
  {| status_code := 200;
     headers := [];
     content := [];
     json_body := Some (JObject [("access_token", PyStr "token");
                                 ("token_type", PyStr "Bearer")]) |}.

Definition granting_world : world :=
  {| server := fun _ _ => Some token_response;
     files := fun _ => None;
     locale := UTF8 |}.

Definition denied : response :=
  {| status_code := 401;
     headers := [];
     content := [x6e; x6f];
     json_body := None |}.

Definition denying_world : world :=
  {| server := fun _ _ => Some denied;
     files := fun _ => None;
     locale := UTF8 |}.

(** A world whose server answers every request with the record of the
    sample draftset, and one that answers with a list of two such records. *)
Definition record_world : world :=
  {| server := fun _ _ => Some draftset_record;
     files := fun _ => None;
     locale := UTF8 |}.

Definition sample_record : json :=
  JObject [("id", PyStr "abc-123");
           ("type", PyStr "Draftset");
           ("created-at", PyStr "2020-01-01T00:00:00Z");
           ("updated-at", PyStr "2020-01-01T00:00:00Z");
           ("changes", PyOther "{}" false)].

Definition draftset_list : response :=
  {| status_code := 200;
     headers := [];
     content := [];
     json_body := Some (JArray [sample_record; sample_record]) |}.

Definition list_world : world :=
  {| server := fun _ _ => Some draftset_list;
     files := fun _ => None;
     locale := UTF8 |}.

(** A server that accepts a deletion, and one that answers 200 to it. *)
Definition accepted : response :=
  {| status_code := 202; headers := []; content := []; json_body := None |}.

Definition accepting_world : world :=
  {| server := fun _ _ => Some accepted;
     files := fun _ => Some [];
     locale := UTF8 |}.

(** The arguments of [append_data] get through its checks, with [c] the
    content type it settles on. *)
Definition passes_checks
  (extension content_type graph content_encoding c : pyval) : Prop :=
  truthy (py_or extension content_type) = true
  /\ py_in extension extensions = true
  /\ py_in content_type content_types = true
  /\ resolved_content_type extension content_type = Some c
  /\ (py_in c triple_types = true -> truthy graph = true)
  /\ py_in content_encoding content_encodings = true.

(** What a request of [append_data] may carry as its body: text without a
    carriage return. *)
Definition no_carriage_return (ev : event) : Prop :=
  match ev with
  | Net r => exists rdf, req_data r = TextData rdf /\ has_char CR rdf = false
  | Open _ => True
  end.


(** A request to the drafter service made on behalf of a token: it carries
    the token as a bearer credential and goes to a draftset URL of the
    staging host. *)
Definition drafter_request (token : pyval) (r : request) : Prop :=
  dict_get "Authorization" (req_headers r)
  = Some (PyStr ("Bearer " ++ py_str token))
  /\ prefix "https://cogs-staging-drafter.publishmydata.com/v1/draftset"
            (req_url r) = true.

(** The effects allowed to an operation: drafter requests, and opening
    [file] when there is one. *)
Definition drafter_event (token : pyval) (file : option string) (ev : event)
  : Prop :=
  match ev with
  | Net r => drafter_request token r
  | Open path => file = Some path
  end.

(** A computation that adds at most [n] effects to the log, each of them
    satisfying [P]. *)
Definition adds (P : event -> Prop) (n : nat) {A : Type} (m : io A) : Prop :=
  forall w t, exists later,
    snd (m w t) = (later ++ t)%list
    /\ Forall P later
    /\ (length later <= n)%nat.

(** Two sessions with the same access token; two handles that agree on
    everything but the credentials and base URL of their session; two
    handles that name the same draftset under the same token. *)
Definition same_token (s1 s2 : PublishMyData) : Prop :=
  s1.(access_token) = s2.(access_token).

Definition same_record (d1 d2 : Draftset) : Prop :=
  same_token d1.(_requester) d2.(_requester)
  /\ d1.(id) = d2.(id)
  /\ d1.(type) = d2.(type)
  /\ d1.(created_at) = d2.(created_at)
  /\ d1.(updated_at) = d2.(updated_at)
  /\ d1.(changes) = d2.(changes)
  /\ d1.(display_name) = d2.(display_name)
  /\ d1.(current_owner) = d2.(current_owner)
  /\ d1.(submitted_by) = d2.(submitted_by)
  /\ d1.(claim_role) = d2.(claim_role)
  /\ d1.(claim_user) = d2.(claim_user)
  /\ d1.(description) = d2.(description).

Definition same_target (d1 d2 : Draftset) : Prop :=
  same_token d1.(_requester) d2.(_requester) /\ d1.(id) = d2.(id).

(** A session that got the token of [sample_session] with other
    credentials. *)
Definition rotated_session : PublishMyData :=
  {| client_id := PyStr "other-id";
     client_secret := PyStr "other-secret";
     base_url := PyStr DEFAULT_BASE_URL;
     access_token := PyStr "token" |}.

(** A redirect whose Location ends with a slash, and a world that answers
    a POST with it. *)
Definition see_other_slash : response :=
  {| status_code := 303;
     headers :=
       [("Location",
         "https://cogs-staging-drafter.publishmydata.com/v1/draftset/abc-123/")];
     content := [];
     json_body := None |}.

Definition slash_world : world :=
  {| server := fun _ r =>
                 match req_method r with
                 | POST => Some see_other_slash
                 | _ => Some draftset_record
                 end;
     files := fun _ => None;
     locale := UTF8 |}.

(** A server that answers 200 with a JSON body [data]. *)
Definition json_world (data : json) : world :=
  {| server := fun _ _ =>
                 Some {| status_code := 200; headers := []; content := [];
                         json_body := Some data |};
     files := fun _ => None;
     locale := UTF8 |}.

(** A file with both kinds of line ending that text mode rewrites, the
    bytes [a CR LF b CR c], and the text it is read as, [a LF b LF c]. *)
Definition mixed_bytes : bytes := [x61; x0d; x0a; x62; x0d; x63].

Definition mixed_text : string :=
  String "a" (String LF (String "b" (String LF (String "c" "")))).

(** ** Lemmas on the monad *)

Create HintDb io_log.

Lemma keeps_extends {A : Type} (m : io A) : keeps_log m -> extends_log m.
Proof. intros H w t. exists []. apply H. Qed.

Lemma keeps_ret {A : Type} (a : A) : keeps_log (ret a).
Proof. intros w t. reflexivity. Qed.

Lemma keeps_raise {A : Type} (e : exn) : keeps_log (raise e : io A).
Proof. intros w t. reflexivity. Qed.

Lemma keeps_bind {A B : Type} (m : io A) (k : A -> io B) :
  keeps_log m -> (forall a, keeps_log (k a)) -> keeps_log (bind m k).
Proof.
  intros Hm Hk w t. specialize (Hm w t). cbn.
  destruct (m w t) as [[e | a] t']; cbn in *; subst; [reflexivity | apply Hk].
Qed.

Lemma keeps_assert (b : bool) : keeps_log (assert b).
Proof. destruct b; intros w t; reflexivity. Qed.

Lemma keeps_or_raise {A : Type} (e : exn) (o : option A) :
  keeps_log (or_raise e o).
Proof. destruct o; intros w t; reflexivity. Qed.

Lemma keeps_getitem (d : json) (k : string) : keeps_log (getitem d k).
Proof.
  destruct d; [apply keeps_raise | apply keeps_raise | apply keeps_or_raise].
Qed.

Lemma extends_bind {A B : Type} (m : io A) (k : A -> io B) :
  extends_log m -> (forall a, extends_log (k a)) -> extends_log (bind m k).
Proof.
  intros Hm Hk w t. destruct (Hm w t) as [l1 H1]. cbn.
  destruct (m w t) as [[e | a] t']; cbn in *; subst.
  - exists l1. reflexivity.
  - destruct (Hk a w (l1 ++ t)%list) as [l2 H2]. exists (l2 ++ l1)%list.
    rewrite H2. apply app_assoc.
Qed.

Lemma extends_send (r : request) : extends_log (send r).
Proof.
  intros w t. exists [Net r]. unfold send.
  destruct (server w t r); reflexivity.
Qed.

Lemma extends_open_read (path : string) : extends_log (open_read path).
Proof.
  intros w t. exists [Open path]. unfold open_read.
  destruct (files w path) as [bs |]; [destruct (decode _ bs) |]; reflexivity.
Qed.

Lemma extends_if {A : Type} (b : bool) (m1 m2 : io A) :
  extends_log m1 -> extends_log m2 -> extends_log (if b then m1 else m2).
Proof. destruct b; auto. Qed.

#[global] Hint Resolve keeps_ret keeps_raise keeps_bind keeps_assert
  keeps_or_raise keeps_getitem : io_log.
#[global] Hint Resolve keeps_extends extends_bind extends_send
  extends_open_read extends_if : io_log.

Lemma keeps_Draftset_init (fields : Draftset) :
  keeps_log (Draftset_init fields).
Proof. unfold Draftset_init, Draftset_post_init. auto 10 with io_log. Qed.

Lemma keeps_Draftset_of_json (self : PublishMyData) (d : json) :
  keeps_log (Draftset_of_json self d).
Proof.
  unfold Draftset_of_json. auto 20 using keeps_Draftset_init with io_log.
Qed.

Lemma keeps_raise_for {A : Type} (r : response) :
  keeps_log (raise_for r : io A).
Proof. unfold raise_for, content_text. auto 10 with io_log. Qed.

Lemma keeps_response_json (r : response) : keeps_log (response_json r).
Proof. unfold response_json. auto with io_log. Qed.

#[global] Hint Resolve keeps_Draftset_init keeps_Draftset_of_json
  keeps_raise_for keeps_response_json : io_log.

Lemma extends_get_draftset (self : PublishMyData) (i u : pyval) :
  extends_log (get_draftset self i u).
Proof. unfold get_draftset. auto 20 with io_log. Qed.

#[global] Hint Resolve extends_get_draftset : io_log.

(** Once the first call is out, whatever follows comes after it. *)
Lemma first_effect_send {A : Type} (r : request) (k : response -> io A)
  (w : world) (t : log) :
  (forall resp, extends_log (k resp)) ->
  first_effect (bind (send r) k) (Net r) w t.
Proof.
  intros Hk. unfold first_effect, send. cbn.
  destruct (server w t r) as [resp |].
  - destruct (Hk resp w (Net r :: t)) as [l H]. exists l. exact H.
  - exists []. reflexivity.
Qed.

Lemma first_effect_open_read {A : Type} (path : string) (k : string -> io A)
  (w : world) (t : log) :
  (forall s, extends_log (k s)) ->
  first_effect (bind (open_read path) k) (Open path) w t.
Proof.
  intros Hk. unfold first_effect, open_read. cbn.
  destruct (files w path) as [bs |]; [destruct (decode _ bs) as [s |] |].
  - destruct (Hk (universal_newlines s) w (Open path :: t)) as [l H].
    exists l. exact H.
  - exists []. reflexivity.
  - exists []. reflexivity.
Qed.

(** The two outcomes exclude each other. *)
Lemma first_effect_not_fails {A : Type} (m : io A) (ev : event) (e : exn)
  (w : world) (t : log) :
  first_effect m ev w t -> ~ fails_before_io m e w t.
Proof.
  intros [l H] F. unfold fails_before_io in F. rewrite F in H. cbn in H.
  apply (f_equal (@length event)) in H. rewrite length_app in H.
  cbn in H. lia.
Qed.

(** Unfolding the monad's plumbing, leaving the effects folded. *)
Ltac io_step :=
  cbv beta iota delta [bind ret raise Monad_io Exc_io assert or_raise].

(** Stepping over an [assert]. *)
Lemma assert_false_fails {A : Type} (b : bool) (k : unit -> io A)
  (w : world) (t : log) :
  b = false -> fails_before_io (bind (assert b) k) AssertionError w t.
Proof. intros ->. reflexivity. Qed.

Lemma assert_true_fails {A : Type} (b : bool) (k : unit -> io A) (e : exn)
  (w : world) (t : log) :
  b = true -> fails_before_io (k tt) e w t ->
  fails_before_io (bind (assert b) k) e w t.
Proof. intros -> H. exact H. Qed.

Lemma assert_true_first_effect {A : Type} (b : bool) (k : unit -> io A)
  (ev : event) (w : world) (t : log) :
  b = true -> first_effect (k tt) ev w t ->
  first_effect (bind (assert b) k) ev w t.
Proof. intros -> H. exact H. Qed.

(** Membership in a tuple of literals. *)
Lemma py_in_str (s : string) (tup : list (option string)) :
  py_in (PyStr s) tup = true <-> In (Some s) tup.
Proof.
  unfold py_in. rewrite existsb_exists. split.
  - intros [[c |] [Hin Hc]]; [| discriminate].
    apply String.eqb_eq in Hc. subst. exact Hin.
  - intros Hin. exists (Some s). split; [exact Hin | apply String.eqb_refl].
Qed.

Lemma py_in_none (tup : list (option string)) :
  py_in PyNone tup = true <-> In None tup.
Proof.
  unfold py_in. rewrite existsb_exists. split.
  - intros [[c |] [Hin Hc]]; [discriminate | exact Hin].
  - intros Hin. exists None. split; [exact Hin | reflexivity].
Qed.

Lemma py_in_bool (b : bool) (tup : list (option string)) :
  py_in (PyBool b) tup = false.
Proof. induction tup as [| [c |] tup IH]; cbn; auto. Qed.

Lemma py_in_other (text : string) (b : bool) (tup : list (option string)) :
  py_in (PyOther text b) tup = false.
Proof. induction tup as [| [c |] tup IH]; cbn; auto. Qed.

Lemma py_in_literal (v : pyval) (tup : list (option string)) :
  py_in v tup = true <-> exists c, In c tup /\ v = literal c.
Proof.
  destruct v as [| b | s | text b].
  - rewrite py_in_none. split.
    + intros H. exists None. auto.
    + intros [[c |] [Hin Hc]]; [discriminate | exact Hin].
  - rewrite py_in_bool. split; [discriminate |].
    intros [[c |] [_ Hc]]; discriminate.
  - rewrite py_in_str. split.
    + intros H. exists (Some s). auto.
    + intros [[c |] [Hin Hc]]; [| discriminate].
      injection Hc as ->. exact Hin.
  - rewrite py_in_other. split; [discriminate |].
    intros [[c |] [_ Hc]]; discriminate.
Qed.

Lemma py_in_false (v : pyval) (tup : list (option string)) :
  (forall c, In c tup -> v <> literal c) -> py_in v tup = false.
Proof.
  intros H. destruct (py_in v tup) eqn:E; [| reflexivity].
  apply py_in_literal in E. destruct E as [c [Hin Hc]].
  exfalso. exact (H c Hin Hc).
Qed.

(** ** Listing draftsets *)

(** C5. For every [include] value other than "owned", "claimable" and
    "all", [get_draftsets] raises [AssertionError] (the client-side
    invalid-argument failure) and the log is unchanged: no request was
    built or sent. *)
Theorem get_draftsets_rejects_include
  (self : PublishMyData) (include union_with_live : pyval)
  (w : world) (t : log) :
  include <> PyStr "owned" ->
  include <> PyStr "claimable" ->
  include <> PyStr "all" ->
  fails_before_io (get_draftsets self include union_with_live)
                  AssertionError w t.
Proof.
  intros H1 H2 H3. unfold get_draftsets.
  apply assert_false_fails. apply py_in_false.
  intros c [<- | [<- | [<- | []]]]; assumption.
Qed.

Lemma get_draftsets_rejects_include_witness :
  fails_before_io
    (get_draftsets sample_session (PyStr "mine") (PyBool false))
    AssertionError quiet_world [].
Proof.
  apply get_draftsets_rejects_include; discriminate.
Defined.

(** ** Constructing a handle *)

Lemma valid_type_py_in (v : pyval) :
  py_in v [Some "Endpoint"; Some "Draftset"] = true <-> valid_type v.
Proof.
  rewrite py_in_literal. unfold valid_type. split.
  - intros [c [[<- | [<- | []]] ->]]; auto.
  - intros [-> | ->]; [exists (Some "Endpoint") | exists (Some "Draftset")];
      cbn; auto.
Qed.

Lemma Draftset_init_valid (fields : Draftset) (w : world) (t : log) :
  valid_type fields.(type) -> Draftset_init fields w t = (inr fields, t).
Proof.
  intros H. apply valid_type_py_in in H.
  unfold Draftset_init, Draftset_post_init. rewrite H. reflexivity.
Qed.

Lemma Draftset_init_invalid (fields : Draftset) (w : world) (t : log) :
  ~ valid_type fields.(type) ->
  Draftset_init fields w t = (inl AssertionError, t).
Proof.
  intros H. unfold Draftset_init, Draftset_post_init.
  destruct (py_in _ _) eqn:E; [| reflexivity].
  apply valid_type_py_in in E. contradiction.
Qed.

Lemma Draftset_init_inv (fields d : Draftset) (w : world) (t t' : log) :
  Draftset_init fields w t = (inr d, t') ->
  d = fields /\ t' = t /\ valid_type d.(type).
Proof.
  unfold Draftset_init, Draftset_post_init.
  destruct (py_in _ _) eqn:E; cbn; intros H; [| discriminate].
  injection H as <- <-. apply valid_type_py_in in E. auto.
Qed.

(** A handle built from a server record carries the record's [type]. *)
Lemma Draftset_of_json_inv (self : PublishMyData) (record : json)
  (d : Draftset) (w : world) (t t' : log) :
  Draftset_of_json self record w t = (inr d, t') ->
  exists fields, record = JObject fields
                 /\ dict_get "type" fields = Some d.(type)
                 /\ valid_type d.(type).
Proof.
  unfold Draftset_of_json.
  destruct record as [v | items | fields]; cbn; try discriminate.
  destruct (dict_get "id" fields); cbn; [| discriminate].
  destruct (dict_get "type" fields) as [ty |] eqn:Ety; cbn; [| discriminate].
  destruct (dict_get "created-at" fields); cbn; [| discriminate].
  destruct (dict_get "updated-at" fields); cbn; [| discriminate].
  destruct (dict_get "changes" fields); cbn; [| discriminate].
  intros H. apply Draftset_init_inv in H. destruct H as [-> [_ Hv]].
  exists fields. auto.
Qed.

(** C8. Constructing a [Draftset] succeeds, giving the handle with the
    fields as passed, exactly when [type] is "Endpoint" or "Draftset"; with
    any other [type] (such as "Unknown") construction raises
    [AssertionError].  So a constructed handle, in particular one decoded
    from a server record, has its [type] among the two. *)
Theorem Draftset_type_invariant
  (fields : Draftset) (self : PublishMyData) (record : json)
  (w : world) (t : log) :
  (valid_type fields.(type) -> Draftset_init fields w t = (inr fields, t))
  /\ (~ valid_type fields.(type) ->
      Draftset_init fields w t = (inl AssertionError, t))
  /\ (forall d t', Draftset_init fields w t = (inr d, t') ->
                   valid_type d.(type))
  /\ (forall d t', Draftset_of_json self record w t = (inr d, t') ->
                   valid_type d.(type)).
Proof.
  split; [apply Draftset_init_valid |].
  split; [apply Draftset_init_invalid |].
  split.
  - intros d t' H. apply Draftset_init_inv in H. tauto.
  - intros d t' H. apply Draftset_of_json_inv in H.
    destruct H as [fields' [_ [_ Hv]]]. exact Hv.
Qed.

Lemma Draftset_type_invariant_witness :
  Draftset_init sample_draftset quiet_world [] = (inr sample_draftset, [])
  /\ Draftset_init unknown_draftset quiet_world [] = (inl AssertionError, []).
Proof.
  split.
  - apply (proj1 (Draftset_type_invariant sample_draftset sample_session
                    (JAtom PyNone) quiet_world [])).
    right. reflexivity.
  - apply (proj1 (proj2 (Draftset_type_invariant unknown_draftset
                           sample_session (JAtom PyNone) quiet_world []))).
    intros [H | H]; discriminate H.
Defined.

(** ** Submitting a draftset *)

Lemma truthy_str (s : string) : truthy (PyStr s) = true <-> s <> "".
Proof.
  cbn. destruct (String.eqb_spec s ""); cbn; split; intros; congruence.
Qed.

(** The three asserts of [submit_to] all hold: the request goes out. *)
Lemma submit_to_sends (self : Draftset) (role user : pyval)
  (w : world) (t : log) :
  py_in role submit_to_roles = true ->
  is_str user || is_none user = true ->
  xorb (truthy role) (truthy user) = true ->
  first_effect (submit_to self role user)
               (Net (submit_to_request self role user)) w t.
Proof.
  intros H1 H2 H3. unfold submit_to.
  apply assert_true_first_effect; [exact H1 |].
  apply assert_true_first_effect; [exact H2 |].
  apply assert_true_first_effect; [exact H3 |].
  apply first_effect_send. intros resp. auto with io_log.
Qed.

(** The exclusive-or does not hold: nothing goes out. *)
Lemma submit_to_rejects (self : Draftset) (role user : pyval)
  (w : world) (t : log) :
  xorb (truthy role) (truthy user) = false ->
  fails_before_io (submit_to self role user) AssertionError w t.
Proof.
  intros H. unfold submit_to.
  destruct (py_in role _) eqn:E1; [| apply assert_false_fails; reflexivity].
  apply assert_true_fails; [reflexivity |].
  destruct (is_str user || is_none user) eqn:E2;
    [| apply assert_false_fails; reflexivity].
  apply assert_true_fails; [reflexivity |].
  apply assert_false_fails. exact H.
Qed.

(** C10. With [role=None] and a string [s] as [user], [submit_to] gets past
    its checks and sends the request exactly when [s] is not empty; with
    the empty string it raises [AssertionError] before any request, the
    empty string counting as no user at all. *)
Theorem submit_to_user_string
  (self : Draftset) (s : string) (w : world) (t : log) :
  (first_effect (submit_to self PyNone (PyStr s))
                (Net (submit_to_request self PyNone (PyStr s))) w t
   <-> s <> "")
  /\ (fails_before_io (submit_to self PyNone (PyStr s)) AssertionError w t
      <-> s = "").
Proof.
  assert (Hsend : s <> "" ->
                  first_effect (submit_to self PyNone (PyStr s))
                    (Net (submit_to_request self PyNone (PyStr s))) w t).
  { intros Hs. apply submit_to_sends; try reflexivity.
    apply truthy_str in Hs. rewrite Hs. reflexivity. }
  assert (Hfail : s = "" ->
                  fails_before_io (submit_to self PyNone (PyStr s))
                                  AssertionError w t).
  { intros ->. apply submit_to_rejects. reflexivity. }
  split; split; auto.
  - intros Hfe ->.
    exact (first_effect_not_fails _ _ _ _ _ Hfe (Hfail eq_refl)).
  - intros Hf. destruct (string_dec s "") as [E | E]; [exact E |].
    exfalso. exact (first_effect_not_fails _ _ _ _ _ (Hsend E) Hf).
Qed.

Lemma submit_to_user_string_witness :
  fails_before_io (submit_to sample_draftset PyNone (PyStr ""))
                  AssertionError quiet_world []
  /\ first_effect (submit_to sample_draftset PyNone (PyStr "alice"))
        (Net (submit_to_request sample_draftset PyNone (PyStr "alice")))
        quiet_world [].
Proof.
  split.
  - apply (proj2 (submit_to_user_string sample_draftset "" quiet_world [])).
    reflexivity.
  - apply (proj1 (submit_to_user_string sample_draftset "alice"
                    quiet_world [])).
    discriminate.
Defined.

Lemma supplied_truthy (v : pyval) :
  is_str v || is_none v = true -> (truthy v = true <-> supplied v).
Proof.
  unfold supplied. destruct v as [| b | s | text b]; cbn; try discriminate.
  - intros _. split; [discriminate | intros [H _]; congruence].
  - intros _. destruct (String.eqb_spec s ""); cbn; split.
    + discriminate.
    + intros [_ H]. subst. congruence.
    + intros _. split; congruence.
    + reflexivity.
Qed.

Lemma role_is_str_or_none (role : pyval) :
  py_in role submit_to_roles = true -> is_str role || is_none role = true.
Proof. destruct role; cbn; auto. Qed.

(** The claim fails as it is stated with "set" read as "not [None]": a role
    together with the empty string as user are both set, and the request is
    sent all the same; the empty string alone is one argument set, and the
    call is refused. *)
Lemma submit_to_xor_counterexample :
  (PyStr "editor" <> PyNone /\ PyStr "" <> PyNone
   /\ first_effect
        (submit_to sample_draftset (PyStr "editor") (PyStr ""))
        (Net (submit_to_request sample_draftset (PyStr "editor") (PyStr "")))
        quiet_world []
   /\ ~ fails_before_io
          (submit_to sample_draftset (PyStr "editor") (PyStr ""))
          AssertionError quiet_world [])
  /\ (PyStr "" <> PyNone
      /\ fails_before_io (submit_to sample_draftset PyNone (PyStr ""))
                         AssertionError quiet_world []).
Proof.
  assert (H : first_effect
                (submit_to sample_draftset (PyStr "editor") (PyStr ""))
                (Net (submit_to_request sample_draftset (PyStr "editor")
                                        (PyStr "")))
                quiet_world []).
  { apply submit_to_sends; reflexivity. }
  split.
  - split; [discriminate |]. split; [discriminate |].
    split; [exact H | exact (first_effect_not_fails _ _ _ _ _ H)].
  - split; [discriminate |]. apply submit_to_rejects. reflexivity.
Qed.

(** C2, amended. [submit_to] wants exactly one of [role] and [user], where
    an argument counts only if it is neither [None] nor the empty string:
    with both or with neither it raises [AssertionError] before any
    request; with exactly one (the role among "editor", "publisher" and
    "manager") the checks pass and the request is sent. *)
Theorem submit_to_exclusive_or
  (self : Draftset) (role user : pyval) (w : world) (t : log) :
  py_in role submit_to_roles = true ->
  is_str user || is_none user = true ->
  ((supplied role /\ supplied user) \/ (~ supplied role /\ ~ supplied user) ->
   fails_before_io (submit_to self role user) AssertionError w t)
  /\ ((supplied role /\ ~ supplied user) \/ (~ supplied role /\ supplied user) ->
      first_effect (submit_to self role user)
                   (Net (submit_to_request self role user)) w t).
Proof.
  intros Hrole Huser.
  pose proof (supplied_truthy role (role_is_str_or_none role Hrole)) as Hr.
  pose proof (supplied_truthy user Huser) as Hu.
  split.
  - intros H. apply submit_to_rejects.
    destruct (truthy role), (truthy user); try reflexivity; exfalso;
      intuition congruence.
  - intros H. apply submit_to_sends; try assumption.
    destruct (truthy role), (truthy user); try reflexivity; exfalso;
      intuition congruence.
Qed.

Lemma submit_to_exclusive_or_witness :
  fails_before_io
    (submit_to sample_draftset (PyStr "editor") (PyStr "alice"))
    AssertionError quiet_world []
  /\ first_effect
       (submit_to sample_draftset (PyStr "editor") PyNone)
       (Net (submit_to_request sample_draftset (PyStr "editor") PyNone))
       quiet_world [].
Proof.
  split.
  - apply (submit_to_exclusive_or sample_draftset (PyStr "editor")
             (PyStr "alice") quiet_world []); try reflexivity.
    left. split; split; discriminate.
  - apply (submit_to_exclusive_or sample_draftset (PyStr "editor")
             PyNone quiet_world []); try reflexivity.
    left. split; [split; discriminate | intros [H _]; congruence].
Defined.

(** ** Uploading data *)

Lemma extension_lookup_some (extension c : pyval) :
  extension_lookup extension = Some c ->
  truthy extension = true /\ py_in extension extensions = true.
Proof.
  destruct extension as [| b | e | text b]; try discriminate.
  unfold extension_lookup, extension_map. cbn [dict_get].
  repeat match goal with
         | |- context [String.eqb e ?lit] =>
             destruct (String.eqb_spec e lit) as [-> | _];
             [intros _; split; reflexivity |]
         end.
  discriminate.
Qed.

Lemma extends_upload (self : Draftset) (filepath : string)
  (c graph metadata content_encoding : pyval) :
  extends_log (upload self filepath c graph metadata content_encoding).
Proof. unfold upload. auto 10 with io_log. Qed.

Lemma resolved_step (extension content_type c : pyval) :
  resolved_content_type extension content_type = Some c ->
  (if truthy extension then extension_map_getitem extension
   else ret content_type) = (ret c : io pyval).
Proof.
  unfold resolved_content_type, extension_map_getitem.
  destruct (truthy extension); intros H.
  - rewrite H. reflexivity.
  - injection H as ->. reflexivity.
Qed.

(** All checks pass: the call is the upload with the resolved type. *)
Lemma append_data_accepts (self : Draftset) (filepath : string)
  (extension content_type graph metadata content_encoding c : pyval)
  (w : world) (t : log) :
  truthy (py_or extension content_type) = true ->
  py_in extension extensions = true ->
  py_in content_type content_types = true ->
  resolved_content_type extension content_type = Some c ->
  (py_in c triple_types = true -> truthy graph = true) ->
  py_in content_encoding content_encodings = true ->
  append_data self filepath extension content_type graph metadata
              content_encoding w t
  = upload self filepath c graph metadata content_encoding w t.
Proof.
  unfold extensions, content_types, triple_types, content_encodings.
  intros H1 H2 H3 Hc Hg H6. unfold append_data, upload.
  rewrite H1, H2, H3, (resolved_step _ _ _ Hc). io_step.
  destruct (py_in c _) eqn:E.
  - rewrite (Hg eq_refl), H6. reflexivity.
  - rewrite H6. reflexivity.
Qed.

(** A triple serialization and no graph: refused, whatever else holds. *)
Lemma append_data_needs_graph (self : Draftset) (filepath : string)
  (extension content_type graph metadata content_encoding c : pyval)
  (w : world) (t : log) :
  resolved_content_type extension content_type = Some c ->
  py_in c triple_types = true ->
  truthy graph = false ->
  fails_before_io
    (append_data self filepath extension content_type graph metadata
                 content_encoding)
    AssertionError w t.
Proof.
  unfold triple_types. intros Hc Htriple Hg. unfold append_data.
  destruct (truthy (py_or extension content_type));
    [| apply assert_false_fails; reflexivity].
  apply assert_true_fails; [reflexivity |].
  destruct (py_in extension _); [| apply assert_false_fails; reflexivity].
  apply assert_true_fails; [reflexivity |].
  destruct (py_in content_type _); [| apply assert_false_fails; reflexivity].
  apply assert_true_fails; [reflexivity |].
  rewrite (resolved_step _ _ _ Hc). unfold fails_before_io. io_step.
  rewrite Htriple, Hg. reflexivity.
Qed.

(** Neither an extension nor a content type: refused at the first check. *)
Lemma append_data_needs_format (self : Draftset) (filepath : string)
  (extension content_type graph metadata content_encoding : pyval)
  (w : world) (t : log) :
  truthy extension = false ->
  truthy content_type = false ->
  fails_before_io
    (append_data self filepath extension content_type graph metadata
                 content_encoding)
    AssertionError w t.
Proof.
  intros He Hc. unfold append_data. apply assert_false_fails.
  unfold py_or. rewrite He. exact Hc.
Qed.

Lemma first_effect_upload (self : Draftset) (filepath : string)
  (c graph metadata content_encoding : pyval) (w : world) (t : log) :
  first_effect (upload self filepath c graph metadata content_encoding)
               (Open filepath) w t.
Proof.
  unfold upload. apply first_effect_open_read. intros rdf.
  auto 10 with io_log.
Qed.

(** The log of an upload whose file can be read as text. *)
Lemma upload_log (self : Draftset) (filepath : string)
  (c graph metadata content_encoding : pyval) (w : world) (t : log)
  (bs : bytes) (text : string) :
  files w filepath = Some bs ->
  decode (locale w) bs = Some text ->
  snd (upload self filepath c graph metadata content_encoding w t)
  = Net (append_data_request self c graph metadata content_encoding
                             (universal_newlines text))
    :: Open filepath :: t.
Proof.
  intros Hf Hd. unfold upload, open_read, send. io_step.
  rewrite Hf, Hd.
  destruct (server w _ _); reflexivity.
Qed.

Lemma py_in_quad_not_triple (c : pyval) :
  py_in c quad_types = true -> py_in c triple_types = false.
Proof.
  intros H. apply py_in_literal in H.
  destruct H as [k [[<- | [<- | []]] ->]]; reflexivity.
Qed.

(** C3. When the content type that [append_data] settles on is a triple
    serialization and no graph is given, the call raises [AssertionError]
    before the file is opened or anything is sent; when it is a quad
    serialization the missing graph is no obstacle: with the other
    arguments valid, the checks pass and the file is opened.  With
    extension ".ttl" and no graph the call fails before reading the file;
    with extension ".trig" and no graph it passes. *)
Theorem append_data_graph_check
  (self : Draftset) (filepath : string)
  (extension content_type graph metadata content_encoding c : pyval)
  (w : world) (t : log) :
  resolved_content_type extension content_type = Some c ->
  truthy graph = false ->
  (py_in c triple_types = true ->
   fails_before_io
     (append_data self filepath extension content_type graph metadata
                  content_encoding)
     AssertionError w t)
  /\ (py_in c quad_types = true ->
      py_in extension extensions = true ->
      py_in content_type content_types = true ->
      py_in content_encoding content_encodings = true ->
      first_effect
        (append_data self filepath extension content_type graph metadata
                     content_encoding)
        (Open filepath) w t)
  /\ fails_before_io
       (append_data self filepath (PyStr ".ttl") content_type PyNone
                    metadata content_encoding)
       AssertionError w t
  /\ first_effect
       (append_data self filepath (PyStr ".trig") PyNone PyNone metadata
                    PyNone)
       (Open filepath) w t.
Proof.
  intros Hc Hg. split; [| split; [| split]].
  - intros Htriple. exact (append_data_needs_graph _ _ _ _ _ _ _ _ _ _
                             Hc Htriple Hg).
  - intros Hquad H2 H3 H6. unfold first_effect.
    rewrite (append_data_accepts _ _ _ _ _ _ _ c); try assumption.
    + apply first_effect_upload.
    + unfold resolved_content_type in Hc. unfold py_or.
      destruct (truthy extension) eqn:E; [exact E |].
      injection Hc as ->. apply py_in_literal in Hquad.
      destruct Hquad as [k [[<- | [<- | []]] ->]]; reflexivity.
    + rewrite (py_in_quad_not_triple _ Hquad). discriminate.
  - apply (append_data_needs_graph _ _ _ _ _ _ _ (PyStr "text/turtle"));
      reflexivity.
  - unfold first_effect.
    rewrite (append_data_accepts _ _ _ _ _ _ _ (PyStr "application/trig"));
      try reflexivity.
    + apply first_effect_upload.
    + discriminate.
Qed.

Lemma append_data_graph_check_witness :
  fails_before_io
    (append_data sample_draftset "data.nt" PyNone
                 (PyStr "application/n-triples") PyNone PyNone PyNone)
    AssertionError quiet_world []
  /\ first_effect
       (append_data sample_draftset "data.nq" (PyStr ".nq") PyNone PyNone
                    PyNone (PyStr "gzip"))
       (Open "data.nq") quiet_world [].
Proof.
  split.
  - apply (proj1 (append_data_graph_check sample_draftset "data.nt" PyNone
                    (PyStr "application/n-triples") PyNone PyNone PyNone
                    (PyStr "application/n-triples") quiet_world []
                    eq_refl eq_refl)).
    reflexivity.
  - apply (proj1 (proj2 (append_data_graph_check sample_draftset "data.nq"
                           (PyStr ".nq") PyNone PyNone PyNone (PyStr "gzip")
                           (PyStr "application/n-quads") quiet_world []
                           eq_refl eq_refl))); reflexivity.
Defined.

(** The pair ".trig" and "text/turtle" disagrees with the table, and the
    call goes through all the same: the file is read and sent as
    "application/trig". *)
Lemma append_data_consistency_counterexample :
  extension_lookup (PyStr ".trig") = Some (PyStr "application/trig")
  /\ PyStr "application/trig" <> PyStr "text/turtle"
  /\ run (append_data sample_draftset "data.trig" (PyStr ".trig")
                      (PyStr "text/turtle") PyNone PyNone PyNone)
         quiet_world
     = (inr tt,
        [Open "data.trig";
         Net (append_data_request sample_draftset
                (PyStr "application/trig") PyNone PyNone PyNone "")])
  /\ ~ fails_before_io
         (append_data sample_draftset "data.trig" (PyStr ".trig")
                      (PyStr "text/turtle") PyNone PyNone PyNone)
         AssertionError quiet_world [].
Proof.
  split; [reflexivity |]. split; [discriminate |].
  split; [reflexivity |].
  apply (first_effect_not_fails _ (Open "data.trig")).
  unfold first_effect.
  rewrite (append_data_accepts _ _ _ _ _ _ _ (PyStr "application/trig"));
    try reflexivity.
  - apply first_effect_upload.
  - discriminate.
Qed.

(** C4, amended. [append_data] wants at least one of [extension] and
    [content_type]: with neither it raises [AssertionError] before any
    effect.  When an extension of the table is given, the content type
    sent is the table's entry for it; a [content_type] given next to it
    must be one of the six MIME types but is otherwise ignored, so that no
    agreement between the two is asked for. *)
Theorem append_data_extension_overrides
  (self : Draftset) (filepath : string)
  (extension content_type graph metadata content_encoding c : pyval)
  (w : world) (t : log) :
  (truthy extension = false -> truthy content_type = false ->
   fails_before_io
     (append_data self filepath extension content_type graph metadata
                  content_encoding)
     AssertionError w t)
  /\ (extension_lookup extension = Some c ->
      py_in content_type content_types = true ->
      (py_in c triple_types = true -> truthy graph = true) ->
      py_in content_encoding content_encodings = true ->
      first_effect
        (append_data self filepath extension content_type graph metadata
                     content_encoding)
        (Open filepath) w t
      /\ append_data self filepath extension content_type graph metadata
                     content_encoding w t
         = append_data self filepath extension PyNone graph metadata
                       content_encoding w t
      /\ forall bs text,
           files w filepath = Some bs ->
           decode (locale w) bs = Some text ->
           snd (append_data self filepath extension content_type graph
                            metadata content_encoding w t)
           = Net (append_data_request self c graph metadata content_encoding
                    (universal_newlines text))
             :: Open filepath :: t).
Proof.
  split; [apply append_data_needs_format |].
  intros Hc H3 Hg H6.
  destruct (extension_lookup_some _ _ Hc) as [He H2].
  assert (Hres : forall ct, resolved_content_type extension ct = Some c).
  { intros ct. unfold resolved_content_type. rewrite He. exact Hc. }
  assert (Hor : forall ct, truthy (py_or extension ct) = true).
  { intros ct. unfold py_or. rewrite He. exact He. }
  assert (Hacc : forall ct,
             py_in ct content_types = true ->
             append_data self filepath extension ct graph metadata
                         content_encoding w t
             = upload self filepath c graph metadata content_encoding w t).
  { intros ct Hct. apply append_data_accepts; auto. }
  split; [| split].
  - unfold first_effect. rewrite (Hacc _ H3). apply first_effect_upload.
  - rewrite (Hacc _ H3), (Hacc PyNone eq_refl). reflexivity.
  - intros bs text Hf Hd. rewrite (Hacc _ H3).
    exact (upload_log _ _ _ _ _ _ _ _ _ _ Hf Hd).
Qed.

Lemma append_data_extension_overrides_witness :
  fails_before_io
    (append_data sample_draftset "data.trig" PyNone PyNone PyNone PyNone
                 PyNone)
    AssertionError quiet_world []
  /\ snd (append_data sample_draftset "data.trig" (PyStr ".trig")
                      (PyStr "text/turtle") PyNone PyNone PyNone
                      quiet_world [])
     = [Net (append_data_request sample_draftset (PyStr "application/trig")
               PyNone PyNone PyNone "");
        Open "data.trig"].
Proof.
  split.
  - apply (proj1 (append_data_extension_overrides sample_draftset
                    "data.trig" PyNone PyNone PyNone PyNone PyNone PyNone
                    quiet_world [])); reflexivity.
  - apply (proj2 (proj2 (proj2
             (append_data_extension_overrides sample_draftset "data.trig"
                (PyStr ".trig") (PyStr "text/turtle") PyNone PyNone PyNone
                (PyStr "application/trig") quiet_world [])
             eq_refl eq_refl (fun H => False_ind _ (diff_false_true H))
             eq_refl)) [] "" eq_refl eq_refl).
Defined.

(** C7 (the code departs from it). The file is opened in text mode, so what
    is sent is the decoded text with its line endings rewritten, not the
    bytes of the file: a file holding [a CR LF b] is sent as the text
    [a LF b] under either locale, and a file starting like a gzip stream
    cannot be read at all under a UTF-8 locale, although
    [content_encoding="gzip"] is accepted. *)
Theorem append_data_reads_text :
  (forall enc,
     run (append_data sample_draftset "data.trig" (PyStr ".trig") PyNone
                      PyNone PyNone PyNone)
         (file_world crlf_bytes enc)
     = (inr tt,
        [Open "data.trig";
         Net (append_data_request sample_draftset (PyStr "application/trig")
                PyNone PyNone PyNone lf_text)]))
  /\ list_byte_of_string lf_text <> crlf_bytes
  /\ run (append_data sample_draftset "data.trig" (PyStr ".trig") PyNone
                      PyNone PyNone (PyStr "gzip"))
         (file_world gzip_bytes UTF8)
     = (inl UnicodeDecodeError, [Open "data.trig"]).
Proof.
  split; [intros [|]; reflexivity |].
  split; [discriminate | reflexivity].
Qed.

Lemma keeps_py_iter (data : json) : keeps_log (py_iter data).
Proof.
  destruct data as [[| b | str | text b] | items | fields]; cbn [py_iter];
    auto with io_log.
Qed.

Lemma keeps_for_each {A B : Type} (f : A -> io B) (items : list A) :
  (forall a, keeps_log (f a)) -> keeps_log (for_each f items).
Proof.
  intros Hf. induction items as [| d rest IH]; cbn [for_each];
    auto 10 with io_log.
Qed.

(** A valid call to [get_draftsets] sends its request first. *)
Lemma get_draftsets_sends (self : PublishMyData)
  (include union_with_live : pyval) (w : world) (t : log) :
  py_in include [Some "owned"; Some "claimable"; Some "all"] = true ->
  is_bool union_with_live = true ->
  first_effect (get_draftsets self include union_with_live)
    (Net (get_draftsets_request self include union_with_live)) w t.
Proof.
  intros H1 H2. unfold get_draftsets.
  apply assert_true_first_effect; [exact H1 |].
  apply assert_true_first_effect; [exact H2 |].
  apply first_effect_send. intros resp.
  apply extends_if; [| auto with io_log].
  apply keeps_extends. apply keeps_bind; [auto with io_log |].
  intros data. apply keeps_bind; [apply keeps_py_iter |].
  intros items. apply keeps_for_each. auto with io_log.
Qed.

(** C6 (the code departs from it). The request of [get_draftsets] is a GET
    to /v1/draftsets, but it has no query parameter at all: the two values
    go into the form-encoded body, and the [include] value goes there under
    the key "incude". *)
Theorem get_draftsets_request_shape
  (self : PublishMyData) (include union_with_live : pyval) :
  let r := get_draftsets_request self include union_with_live in
  req_method r = GET
  /\ req_url r = "https://cogs-staging-drafter.publishmydata.com/v1/draftsets"
  /\ req_params r = []
  /\ req_data r = FormData [("incude", include);
                            ("union-with-live", union_with_live)]
  /\ dict_get "include" [("incude", include);
                         ("union-with-live", union_with_live)] = None
  /\ fst (run (get_draftsets sample_session (PyStr "owned") (PyBool false))
              quiet_world)
     = inl JSONDecodeError
  /\ snd (run (get_draftsets sample_session (PyStr "owned") (PyBool false))
              quiet_world)
     = [Net (get_draftsets_request sample_session (PyStr "owned")
                                   (PyBool false))].
Proof. repeat split. Qed.

(** ** Creating a draftset *)

Lemma split_nonempty (sep : ascii) (s : string) : split sep s <> [].
Proof.
  destruct s as [| c rest]; cbn; [discriminate |].
  destruct (Ascii.eqb c sep); [discriminate |].
  destruct (split sep rest); discriminate.
Qed.

Lemma split_no_sep (sep : ascii) (s : string) :
  has_char sep s = false -> split sep s = [s].
Proof.
  induction s as [| c rest IH]; cbn; [reflexivity |].
  destruct (Ascii.eqb c sep); cbn; [discriminate |].
  intros H. rewrite (IH H). reflexivity.
Qed.

Lemma split_app (sep : ascii) (p s : string) :
  split sep (p ++ String sep s) = (split sep p ++ split sep s)%list.
Proof.
  induction p as [| c rest IH]; cbn.
  - rewrite Ascii.eqb_refl. reflexivity.
  - destruct (Ascii.eqb c sep); rewrite IH; [reflexivity |].
    destruct (split sep rest) as [| h tl] eqn:E; [| reflexivity].
    exfalso. exact (split_nonempty _ _ E).
Qed.

Lemma last_item_app (l1 l2 : list string) :
  l2 <> [] -> last_item (l1 ++ l2) = last_item l2.
Proof.
  intros H. induction l1 as [| x l1 IH]; [reflexivity |].
  cbn [app last_item]. rewrite <- IH.
  destruct (l1 ++ l2)%list as [| y l] eqn:E; [| reflexivity].
  apply app_eq_nil in E. destruct E as [_ E]. contradiction.
Qed.

(** [rsplit("/")[-1]] is what follows the last slash. *)
Lemma last_segment (prefix segment : string) :
  has_char "/" segment = false ->
  last_item (rsplit "/" (prefix ++ "/" ++ segment)) = Some segment.
Proof.
  intros H. unfold rsplit. cbn [append].
  rewrite split_app, last_item_app by apply split_nonempty.
  rewrite (split_no_sep _ _ H). reflexivity.
Qed.

(** [rsplit("/")[-1]] always exists and has no slash in it. *)
Lemma last_item_split (sep : ascii) (s : string) :
  exists x, last_item (split sep s) = Some x /\ has_char sep x = false.
Proof.
  induction s as [| c rest [x [Hx Hc]]]; cbn [split].
  - exists EmptyString. split; reflexivity.
  - destruct (Ascii.eqb c sep) eqn:E.
    + exists x. split; [| exact Hc].
      destruct (split sep rest) as [| h tl] eqn:Es; [discriminate Hx |].
      exact Hx.
    + destruct (split sep rest) as [| h tl] eqn:Es; [discriminate Hx |].
      destruct tl as [| h' tl'].
      * injection Hx as ->. exists (String c x). split; [reflexivity |].
        cbn. rewrite E. exact Hc.
      * exists x. split; [exact Hx | exact Hc].
Qed.

(** After the call, nothing that keeps the log adds to it. *)
Lemma send_then_keeps {A : Type} (r : request) (k : response -> io A)
  (w : world) (t : log) :
  (forall resp, keeps_log (k resp)) ->
  snd (bind (send r) k w t) = Net r :: t.
Proof.
  intros Hk. unfold send. io_step.
  destruct (server w t r) as [resp |]; [apply Hk | reflexivity].
Qed.

Lemma keeps_if {A : Type} (b : bool) (m1 m2 : io A) :
  keeps_log m1 -> keeps_log m2 -> keeps_log (if b then m1 else m2).
Proof. destruct b; auto. Qed.

(** [get_draftset] makes exactly one request. *)
Lemma get_draftset_log (self : PublishMyData) (i u : pyval)
  (w : world) (t : log) :
  is_bool u = true ->
  snd (get_draftset self i u w t) = Net (get_draftset_request self i u) :: t.
Proof.
  intros Hu. unfold get_draftset. rewrite Hu.
  change (bind (assert true) ?k) with (k tt). cbv beta.
  apply send_then_keeps. intros resp.
  apply keeps_if; auto 10 with io_log.
Qed.

Lemma create_draftset_see_other (self : PublishMyData)
  (display_name description union_with_live : pyval) (w : world) (t : log)
  (resp : response) (location draftset_id : string) :
  server w t (create_draftset_request self display_name description
                                      union_with_live) = Some resp ->
  status_code resp = 303%Z ->
  headers_get "location" (headers resp) = Some location ->
  last_item (rsplit "/" location) = Some draftset_id ->
  create_draftset self display_name description union_with_live w t
  = get_draftset self (PyStr draftset_id) (PyBool false) w
      (Net (create_draftset_request self display_name description
                                    union_with_live) :: t).
Proof.
  intros Hs H303 Hloc Hid. unfold create_draftset, send. io_step.
  rewrite Hs, H303, Hloc, Hid. reflexivity.
Qed.

(** Any other status: the body is decoded and raised. *)
Lemma create_draftset_other_status (self : PublishMyData)
  (display_name description union_with_live : pyval) (w : world) (t : log)
  (resp : response) :
  server w t (create_draftset_request self display_name description
                                      union_with_live) = Some resp ->
  status_code resp <> 303%Z ->
  create_draftset self display_name description union_with_live w t
  = (match decode_utf8 (content resp) with
     | Some body => inl (RequestException body)
     | None => inl UnicodeDecodeError
     end,
     Net (create_draftset_request self display_name description
                                  union_with_live) :: t).
Proof.
  intros Hs Hne. unfold create_draftset, send. io_step. rewrite Hs.
  apply Z.eqb_neq in Hne. rewrite Hne.
  unfold raise_for, content_text. io_step.
  destruct (decode_utf8 (content resp)); reflexivity.
Qed.

(** A 303 without a Location header. *)
Lemma create_draftset_no_location (self : PublishMyData)
  (display_name description union_with_live : pyval) (w : world) (t : log)
  (resp : response) :
  server w t (create_draftset_request self display_name description
                                      union_with_live) = Some resp ->
  status_code resp = 303%Z ->
  headers_get "location" (headers resp) = None ->
  create_draftset self display_name description union_with_live w t
  = (inl (KeyError "location"),
     Net (create_draftset_request self display_name description
                                  union_with_live) :: t).
Proof.
  intros Hs H303 Hloc. unfold create_draftset, send. io_step.
  rewrite Hs, H303, Hloc. reflexivity.
Qed.

(** C1 (the code departs from it). When the answer to the POST has a
    status other than 303 and a body that is not UTF-8, [create_draftset]
    raises [UnicodeDecodeError] and no [RequestException]: the body is
    decoded, unguarded, before the exception is built; with a UTF-8 body
    the same path raises [RequestException] with the body.  When the answer
    is a 303 without a Location header, it raises [KeyError] after the one
    POST, and no [get_draftset] follows. *)
Theorem create_draftset_unhandled_errors :
  (status_code binary_error <> 303%Z
   /\ run (create_draftset sample_session PyNone PyNone (PyBool false))
          failing_world
      = (inl UnicodeDecodeError,
         [Net (create_draftset_request sample_session PyNone PyNone
                                       (PyBool false))])
   /\ forall message,
        fst (run (create_draftset sample_session PyNone PyNone
                                  (PyBool false)) failing_world)
        <> inl (RequestException message))
  /\ (status_code bare_see_other = 303%Z
      /\ run (create_draftset sample_session PyNone PyNone (PyBool false))
             lost_world
         = (inl (KeyError "location"),
            [Net (create_draftset_request sample_session PyNone PyNone
                                          (PyBool false))]))
  /\ (status_code denied <> 303%Z
      /\ run (create_draftset sample_session PyNone PyNone (PyBool false))
             denying_world
         = (inl (RequestException "no"),
            [Net (create_draftset_request sample_session PyNone PyNone
                                          (PyBool false))])).
Proof.
  split; [| split].
  - split; [discriminate |]. split; [reflexivity |].
    intros message. discriminate.
  - split; reflexivity.
  - split; [discriminate | reflexivity].
Qed.

(** What [create_draftset] does with the answer to its POST, which is
    sent with redirects switched off.  On a 303 with a Location header it
    takes what follows the last slash of the header as the id and hands
    over to [get_draftset] on that id: the outcome is that of
    [get_draftset], which makes one request, a GET to /v1/draftset/<id>, so
    that two requests are made in all; without the header the lookup
    raises [KeyError].  On any other status it raises [RequestException]
    with the response body as its message when the body decodes as UTF-8;
    when it does not, the decoding raises [UnicodeDecodeError]. *)
Theorem create_draftset_redirect
  (self : PublishMyData) (display_name description union_with_live : pyval)
  (w : world) (t : log) (resp : response) :
  let post := create_draftset_request self display_name description
                                      union_with_live in
  server w t post = Some resp ->
  req_allow_redirects post = false
  /\ (status_code resp = 303%Z ->
      (forall location,
         headers_get "location" (headers resp) = Some location ->
         exists draftset_id,
           let get := get_draftset_request self (PyStr draftset_id)
                                           (PyBool false) in
           last_item (rsplit "/" location) = Some draftset_id
           /\ has_char "/" draftset_id = false
           /\ (forall prefix segment,
                 location = prefix ++ "/" ++ segment ->
                 has_char "/" segment = false ->
                 draftset_id = segment)
           /\ create_draftset self display_name description union_with_live
                              w t
              = get_draftset self (PyStr draftset_id) (PyBool false) w
                             (Net post :: t)
           /\ snd (create_draftset self display_name description
                                   union_with_live w t)
              = Net get :: Net post :: t
           /\ req_method get = GET
           /\ req_url get
              = "https://cogs-staging-drafter.publishmydata.com/v1/draftset/"
                ++ draftset_id)
      /\ (headers_get "location" (headers resp) = None ->
          create_draftset self display_name description union_with_live w t
          = (inl (KeyError "location"), Net post :: t)))
  /\ (status_code resp <> 303%Z ->
      (forall body,
         decode_utf8 (content resp) = Some body ->
         body = string_of_list_byte (content resp)
         /\ create_draftset self display_name description union_with_live
                            w t
            = (inl (RequestException body), Net post :: t))
      /\ (decode_utf8 (content resp) = None ->
          create_draftset self display_name description union_with_live w t
          = (inl UnicodeDecodeError, Net post :: t))).
Proof.
  intros post Hs. split; [reflexivity |]. split.
  - intros H303. split.
    + intros location Hloc.
      destruct (last_item_split "/" location) as [draftset_id [Hid Hno]].
      exists draftset_id. cbv zeta.
      assert (E : create_draftset self display_name description
                                  union_with_live w t
                  = get_draftset self (PyStr draftset_id) (PyBool false) w
                                 (Net post :: t)).
      { apply (create_draftset_see_other _ _ _ _ _ _ resp location);
          assumption. }
      split; [exact Hid |]. split; [exact Hno |]. split.
      * intros prefix segment -> Hseg.
        rewrite (last_segment _ _ Hseg) in Hid. congruence.
      * split; [exact E |]. split; [| split; reflexivity].
        rewrite E. apply get_draftset_log. reflexivity.
    + intros Hloc. apply (create_draftset_no_location _ _ _ _ _ _ resp);
        assumption.
  - intros Hne.
    pose proof (create_draftset_other_status _ _ _ _ _ _ _ Hs Hne) as E.
    split.
    + intros body Hb. rewrite Hb in E. split; [| exact E].
      unfold decode_utf8 in Hb. destruct (utf8_valid _); congruence.
    + intros Hb. rewrite Hb in E. exact E.
Qed.

Lemma create_draftset_redirect_witness :
  run (create_draftset sample_session PyNone PyNone (PyBool false))
      creating_world
  = (inr sample_draftset,
     [Net (create_draftset_request sample_session PyNone PyNone
                                   (PyBool false));
      Net (get_draftset_request sample_session (PyStr "abc-123")
                                (PyBool false))]).
Proof.
  pose proof (create_draftset_redirect sample_session PyNone PyNone
                (PyBool false) creating_world [] see_other eq_refl) as H.
  destruct H as [_ [H _]].
  destruct (proj1 (H eq_refl) _ eq_refl) as [i [_ [_ [Hseg [E _]]]]].
  rewrite (Hseg "https://cogs-staging-drafter.publishmydata.com/v1/draftset"
                "abc-123" eq_refl eq_refl) in E.
  unfold run. rewrite E. reflexivity.
Defined.

(** ** The base URL *)

Lemma blind_bind {A B : Type} (R : A -> A -> Prop) (R' : B -> B -> Prop)
  (m1 m2 : io A) (k1 k2 : A -> io B) :
  base_url_blind R m1 m2 ->
  (forall a1 a2, R a1 a2 -> base_url_blind R' (k1 a1) (k2 a2)) ->
  base_url_blind R' (bind m1 k1) (bind m2 k2).
Proof.
  intros Hm Hk w t. specialize (Hm w t). unfold same_outcome in Hm.
  io_step.
  destruct (m1 w t) as [[e1 | a1] t1], (m2 w t) as [[e2 | a2] t2];
    cbn in Hm; destruct Hm as [<- Hm]; try contradiction.
  - split; [reflexivity | exact Hm].
  - apply Hk. exact Hm.
Qed.

Lemma blind_refl {A : Type} (R : A -> A -> Prop) (m : io A) :
  (forall a, R a a) -> base_url_blind R m m.
Proof.
  intros HR w t. split; [reflexivity |].
  destruct (fst (m w t)); auto.
Qed.

(** A common first step. *)
Lemma blind_after {A B : Type} (R' : B -> B -> Prop)
  (m : io A) (k1 k2 : A -> io B) :
  (forall a, base_url_blind R' (k1 a) (k2 a)) ->
  base_url_blind R' (bind m k1) (bind m k2).
Proof.
  intros Hk. apply (blind_bind eq).
  - apply blind_refl. reflexivity.
  - intros a1 a2 <-. apply Hk.
Qed.

Lemma blind_if {A : Type} (R : A -> A -> Prop) (b : bool)
  (m1 m2 n1 n2 : io A) :
  base_url_blind R m1 m2 -> base_url_blind R n1 n2 ->
  base_url_blind R (if b then m1 else n1) (if b then m2 else n2).
Proof. destruct b; auto. Qed.

Lemma blind_ret {A : Type} (R : A -> A -> Prop) (a1 a2 : A) :
  R a1 a2 -> base_url_blind R (ret a1) (ret a2).
Proof. intros H w t. split; [reflexivity | exact H]. Qed.

Lemma blind_raise_for {A : Type} (R : A -> A -> Prop) (r : response) :
  base_url_blind R (raise_for r) (raise_for r).
Proof.
  intros w t. unfold raise_for, content_text. io_step.
  destruct (decode_utf8 (content r)); split; reflexivity.
Qed.

Lemma same_session_refl (s : PublishMyData) : same_session s s.
Proof. repeat split. Qed.

Lemma same_handle_refl (d : Draftset) : same_handle d d.
Proof. repeat split. Qed.

Lemma blind_Draftset_init (f1 f2 : Draftset) :
  same_handle f1 f2 ->
  base_url_blind same_handle (Draftset_init f1) (Draftset_init f2).
Proof.
  intros H. unfold Draftset_init, Draftset_post_init.
  assert (E : f1.(type) = f2.(type)) by apply H. rewrite E.
  apply blind_after. intros _. apply blind_ret. exact H.
Qed.

Lemma blind_Draftset_of_json (s1 s2 : PublishMyData) (d : json) :
  same_session s1 s2 ->
  base_url_blind same_handle (Draftset_of_json s1 d) (Draftset_of_json s2 d).
Proof.
  intros H. unfold Draftset_of_json.
  do 5 (apply blind_after; intros ?).
  apply blind_Draftset_init. unfold same_handle. cbn. tauto.
Qed.

Lemma blind_for_each (s1 s2 : PublishMyData) (items : list json) :
  same_session s1 s2 ->
  base_url_blind (Forall2 same_handle)
    (for_each (Draftset_of_json s1) items)
    (for_each (Draftset_of_json s2) items).
Proof.
  intros H. induction items as [| d rest IH]; cbn [for_each].
  - apply blind_ret. constructor.
  - apply (blind_bind same_handle); [apply blind_Draftset_of_json, H |].
    intros x1 x2 Hx.
    apply (blind_bind (Forall2 same_handle)); [exact IH |].
    intros xs1 xs2 Hxs. apply blind_ret. constructor; assumption.
Qed.

(** The requests are built from the access token alone. *)
Lemma same_session_requests (s1 s2 : PublishMyData) :
  same_session s1 s2 ->
  (forall i u, get_draftsets_request s1 i u = get_draftsets_request s2 i u)
  /\ (forall i u, get_draftset_request s1 i u = get_draftset_request s2 i u)
  /\ (forall n d u,
        create_draftset_request s1 n d u = create_draftset_request s2 n d u).
Proof.
  intros [_ [_ H]].
  unfold get_draftsets_request, get_draftset_request,
    create_draftset_request.
  rewrite H. repeat split.
Qed.

Lemma same_handle_requests (d1 d2 : Draftset) :
  same_handle d1 d2 ->
  (forall m, delete_request d1 m = delete_request d2 m)
  /\ claim_request d1 = claim_request d2
  /\ (forall r u, submit_to_request d1 r u = submit_to_request d2 r u)
  /\ (forall m, publish_request d1 m = publish_request d2 m)
  /\ (forall c g m e rdf,
        append_data_request d1 c g m e rdf
        = append_data_request d2 c g m e rdf).
Proof.
  intros [[_ [_ Ht]] [Hi _]].
  unfold delete_request, claim_request, submit_to_request, publish_request,
    append_data_request, draftset_url.
  rewrite Ht, Hi. repeat split.
Qed.

Lemma blind_get_draftset (s1 s2 : PublishMyData) (i u : pyval) :
  same_session s1 s2 ->
  base_url_blind same_handle (get_draftset s1 i u) (get_draftset s2 i u).
Proof.
  intros H. unfold get_draftset.
  destruct (same_session_requests _ _ H) as [_ [E _]]. rewrite E.
  do 2 (apply blind_after; intros ?).
  apply blind_if; [| apply blind_raise_for].
  apply blind_after. intros data. apply blind_Draftset_of_json, H.
Qed.

Lemma blind_get_draftsets (s1 s2 : PublishMyData) (i u : pyval) :
  same_session s1 s2 ->
  base_url_blind (Forall2 same_handle)
    (get_draftsets s1 i u) (get_draftsets s2 i u).
Proof.
  intros H. unfold get_draftsets.
  destruct (same_session_requests _ _ H) as [E _]. rewrite E.
  do 3 (apply blind_after; intros ?).
  apply blind_if; [| apply blind_raise_for].
  do 2 (apply blind_after; intros ?).
  apply blind_for_each, H.
Qed.

Lemma blind_create_draftset (s1 s2 : PublishMyData) (n d u : pyval) :
  same_session s1 s2 ->
  base_url_blind same_handle
    (create_draftset s1 n d u) (create_draftset s2 n d u).
Proof.
  intros H. unfold create_draftset.
  destruct (same_session_requests _ _ H) as [_ [_ E]]. rewrite E.
  apply blind_after. intros resp.
  apply blind_if; [| apply blind_raise_for].
  do 2 (apply blind_after; intros ?).
  apply blind_get_draftset, H.
Qed.

Lemma blind_PublishMyData_init (i c b1 b2 : pyval) :
  base_url_blind same_session
    (PublishMyData_init i c b1) (PublishMyData_init i c b2).
Proof.
  unfold PublishMyData_init, get_token.
  apply blind_after. intros resp.
  apply blind_if; [| apply blind_raise_for].
  do 2 (apply blind_after; intros ?).
  apply blind_ret. repeat split.
Qed.

Lemma blind_delete (d1 d2 : Draftset) (m : pyval) :
  same_handle d1 d2 -> base_url_blind eq (delete d1 m) (delete d2 m).
Proof.
  intros H. unfold delete.
  destruct (same_handle_requests _ _ H) as [E _]. rewrite E.
  apply blind_refl. reflexivity.
Qed.

Lemma blind_refetch (d1 d2 : Draftset) (resp : response) :
  same_handle d1 d2 ->
  base_url_blind same_handle
    (if (status_code resp =? 200)%Z
     then get_draftset d1.(_requester) d1.(id) (PyBool false)
     else raise_for resp)
    (if (status_code resp =? 200)%Z
     then get_draftset d2.(_requester) d2.(id) (PyBool false)
     else raise_for resp).
Proof.
  intros H. apply blind_if; [| apply blind_raise_for].
  assert (E : d1.(id) = d2.(id)) by apply H. rewrite E.
  apply blind_get_draftset, H.
Qed.

Lemma blind_claim (d1 d2 : Draftset) :
  same_handle d1 d2 -> base_url_blind same_handle (claim d1) (claim d2).
Proof.
  intros H. unfold claim.
  destruct (same_handle_requests _ _ H) as [_ [E _]]. rewrite E.
  apply blind_after. intros resp. apply blind_refetch, H.
Qed.

Lemma blind_submit_to (d1 d2 : Draftset) (role user : pyval) :
  same_handle d1 d2 ->
  base_url_blind same_handle (submit_to d1 role user)
                 (submit_to d2 role user).
Proof.
  intros H. unfold submit_to.
  destruct (same_handle_requests _ _ H) as [_ [_ [E _]]]. rewrite E.
  do 4 (apply blind_after; intros ?). apply blind_refetch, H.
Qed.

Lemma blind_publish (d1 d2 : Draftset) (m : pyval) :
  same_handle d1 d2 -> base_url_blind eq (publish d1 m) (publish d2 m).
Proof.
  intros H. unfold publish.
  destruct (same_handle_requests _ _ H) as [_ [_ [_ [E _]]]]. rewrite E.
  apply blind_refl. reflexivity.
Qed.

Lemma blind_append_data (d1 d2 : Draftset) (filepath : string)
  (e c g m x : pyval) :
  same_handle d1 d2 ->
  base_url_blind eq (append_data d1 filepath e c g m x)
                 (append_data d2 filepath e c g m x).
Proof.
  intros H. unfold append_data.
  destruct (same_handle_requests _ _ H) as [_ [_ [_ [_ E]]]].
  do 7 (apply blind_after; intros ?). rewrite E.
  apply blind_refl. reflexivity.
Qed.

(** C9. Two sessions that differ only in [base_url], and two handles that
    differ only in the [base_url] of their session, behave alike under
    every operation and in every world: the same requests go to the same
    URLs in the same order, and the outcome is the same exception or the
    same result, up to the [base_url] stored in the handles returned.  The
    same holds of constructing a session on two base URLs.  The URLs are
    literals of the code, completed by the draftset id. *)
Theorem base_url_never_read
  (s1 s2 : PublishMyData) (d1 d2 : Draftset) :
  same_session s1 s2 ->
  same_handle d1 d2 ->
  (forall i u, base_url_blind (Forall2 same_handle)
                 (get_draftsets s1 i u) (get_draftsets s2 i u))
  /\ (forall i u, base_url_blind same_handle
                    (get_draftset s1 i u) (get_draftset s2 i u))
  /\ (forall n d u, base_url_blind same_handle
                      (create_draftset s1 n d u) (create_draftset s2 n d u))
  /\ (forall m, base_url_blind eq (delete d1 m) (delete d2 m))
  /\ base_url_blind same_handle (claim d1) (claim d2)
  /\ (forall r u, base_url_blind same_handle
                    (submit_to d1 r u) (submit_to d2 r u))
  /\ (forall m, base_url_blind eq (publish d1 m) (publish d2 m))
  /\ (forall f e c g m x, base_url_blind eq (append_data d1 f e c g m x)
                                         (append_data d2 f e c g m x))
  /\ (forall i c b1 b2, base_url_blind same_session
                          (PublishMyData_init i c b1)
                          (PublishMyData_init i c b2))
  /\ (forall i u,
        req_url (get_draftsets_request s1 i u)
        = "https://cogs-staging-drafter.publishmydata.com/v1/draftsets"
        /\ req_url (get_draftset_request s1 i u)
           = "https://cogs-staging-drafter.publishmydata.com/v1/draftset/"
             ++ py_str i
        /\ req_url (create_draftset_request s1 i u u)
           = "https://cogs-staging-drafter.publishmydata.com/v1/draftsets")
  /\ (forall suffix,
        draftset_url d1 suffix
        = "https://cogs-staging-drafter.publishmydata.com/v1/draftset/"
          ++ py_str d1.(id) ++ suffix).
Proof.
  intros Hs Hd.
  repeat match goal with |- _ /\ _ => split end;
    intros;
    auto using blind_get_draftsets, blind_get_draftset,
      blind_create_draftset, blind_delete, blind_claim, blind_submit_to,
      blind_publish, blind_append_data, blind_PublishMyData_init.
Qed.

Lemma base_url_never_read_witness :
  same_outcome same_handle
    (create_draftset sample_session PyNone PyNone (PyBool false)
                     creating_world [])
    (create_draftset other_session PyNone PyNone (PyBool false)
                     creating_world [])
  /\ same_outcome same_handle
       (claim sample_draftset creating_world [])
       (claim other_draftset creating_world []).
Proof.
  assert (Hs : same_session sample_session other_session)
    by (repeat split).
  assert (Hd : same_handle sample_draftset other_draftset)
    by (repeat split).
  destruct (base_url_never_read sample_session other_session
              sample_draftset other_draftset Hs Hd)
    as [_ [_ [Hcreate [_ [Hclaim _]]]]].
  split; [apply Hcreate | apply Hclaim].
Defined.

(** ** Authentication *)

(** An answered call hands the response to what follows. *)
Lemma send_bind {A : Type} (r : request) (k : response -> io A)
  (w : world) (t : log) (resp : response) :
  server w t r = Some resp ->
  bind (send r) k w t = k resp w (Net r :: t).
Proof. intros H. unfold send. io_step. rewrite H. reflexivity. Qed.

(** An unanswered call ends the computation. *)
Lemma send_bind_none {A : Type} (r : request) (k : response -> io A)
  (w : world) (t : log) :
  server w t r = None ->
  bind (send r) k w t = (inl ConnectionError, Net r :: t).
Proof. intros H. unfold send. io_step. rewrite H. reflexivity. Qed.

(** X1. Constructing a session succeeds exactly when the token endpoint
    answers the one POST with status 200 and a JSON object that has an
    "access_token"; the session then holds the three arguments and that
    token, and the log has the one request, made to the token endpoint
    without any Authorization header. *)
Theorem PublishMyData_init_succeeds
  (i c b : pyval) (w : world) (t t' : log) (s : PublishMyData) :
  let req := get_token_request i c (PyStr "https://pmd")
                               (PyStr "client_credentials") in
  (PublishMyData_init i c b w t = (inr s, t')
   <-> exists resp fields,
         server w t req = Some resp
         /\ status_code resp = 200%Z
         /\ json_body resp = Some (JObject fields)
         /\ dict_get "access_token" fields = Some s.(access_token)
         /\ s.(client_id) = i /\ s.(client_secret) = c /\ s.(base_url) = b
         /\ t' = Net req :: t)
  /\ req_url req = AUTH0_URL
  /\ req_method req = POST
  /\ dict_get "Authorization" (req_headers req) = None.
Proof.
  intros req. split; [| repeat split]. unfold PublishMyData_init, get_token.
  fold req. split.
  - destruct (server w t req) as [resp |] eqn:Es;
      [rewrite (send_bind _ _ _ _ _ Es) | rewrite (send_bind_none _ _ _ _ Es);
                                           discriminate].
    destruct (status_code resp =? 200)%Z eqn:E200.
    + unfold response_json. io_step.
      destruct (json_body resp) as [[v | items | fields] |] eqn:Ej;
        try discriminate.
      cbn [getitem]. io_step.
      destruct (dict_get "access_token" fields) as [token |] eqn:Et;
        [| discriminate].
      intros H. injection H as <- <-. exists resp, fields.
      apply Z.eqb_eq in E200. cbn. auto 10.
    + unfold raise_for, content_text. io_step.
      destruct (decode_utf8 (content resp)); discriminate.
  - intros [resp [fields [Es [E200 [Ej [Et [Hi [Hc [Hb ->]]]]]]]]].
    rewrite (send_bind _ _ _ _ _ Es). apply Z.eqb_eq in E200. rewrite E200.
    unfold response_json. io_step. rewrite Ej. cbn [getitem]. io_step.
    rewrite Et. destruct s as [si sc sb st]. cbn in *. subst. reflexivity.
Qed.

Lemma PublishMyData_init_succeeds_witness :
  PublishMyData_init (PyStr "id") (PyStr "secret") (PyStr DEFAULT_BASE_URL)
                     granting_world []
  = (inr sample_session,
     [Net (get_token_request (PyStr "id") (PyStr "secret")
             (PyStr "https://pmd") (PyStr "client_credentials"))]).
Proof.
  apply (proj1 (PublishMyData_init_succeeds (PyStr "id") (PyStr "secret")
                  (PyStr DEFAULT_BASE_URL) granting_world [] _
                  sample_session)).
  exists token_response,
    [("access_token", PyStr "token"); ("token_type", PyStr "Bearer")].
  repeat split.
Defined.

(** X2. When the token endpoint answers with any status other than 200,
    construction fails after the one request and no session comes to
    exist: it raises [RequestException] with the response body as message
    when the body is valid UTF-8, and [UnicodeDecodeError] when it is not.
    When the transport fails, it raises [ConnectionError]. *)
Theorem PublishMyData_init_fails
  (i c b : pyval) (w : world) (t : log) :
  let req := get_token_request i c (PyStr "https://pmd")
                               (PyStr "client_credentials") in
  (forall resp,
     server w t req = Some resp ->
     status_code resp <> 200%Z ->
     PublishMyData_init i c b w t
     = (match decode_utf8 (content resp) with
        | Some message => inl (RequestException message)
        | None => inl UnicodeDecodeError
        end, Net req :: t))
  /\ (server w t req = None ->
      PublishMyData_init i c b w t = (inl ConnectionError, Net req :: t)).
Proof.
  intros req. unfold PublishMyData_init, get_token. fold req. split.
  - intros resp Es Hne. rewrite (send_bind _ _ _ _ _ Es).
    apply Z.eqb_neq in Hne. rewrite Hne.
    unfold raise_for, content_text. io_step.
    destruct (decode_utf8 (content resp)); reflexivity.
  - intros Es. apply send_bind_none. exact Es.
Qed.

Lemma PublishMyData_init_fails_witness :
  PublishMyData_init (PyStr "id") (PyStr "bad") (PyStr DEFAULT_BASE_URL)
                     denying_world []
  = (inl (RequestException "no"),
     [Net (get_token_request (PyStr "id") (PyStr "bad")
             (PyStr "https://pmd") (PyStr "client_credentials"))]).
Proof.
  apply (proj1 (PublishMyData_init_fails (PyStr "id") (PyStr "bad")
                  (PyStr DEFAULT_BASE_URL) denying_world []) denied).
  - reflexivity.
  - discriminate.
Defined.

(** ** Decoding records *)

Lemma Draftset_of_json_object (self : PublishMyData) (fields : pydict)
  (w : world) (t : log) :
  Draftset_of_json self (JObject fields) w t
  = match first_missing fields with
    | Some k => (inl (KeyError k), t)
    | None => Draftset_init (record_fields self (JObject fields) fields) w t
    end.
Proof.
  unfold Draftset_of_json, first_missing, required_keys, record_fields.
  cbn [getitem find]. io_step.
  destruct (dict_get "id" fields); [| reflexivity].
  destruct (dict_get "type" fields); [| reflexivity].
  destruct (dict_get "created-at" fields); [| reflexivity].
  destruct (dict_get "updated-at" fields); [| reflexivity].
  destruct (dict_get "changes" fields); reflexivity.
Qed.

Lemma first_missing_spec (fields : pydict) (k : string) :
  first_missing fields = Some k ->
  In k required_keys /\ dict_get k fields = None.
Proof.
  unfold first_missing. intros H. apply find_some in H.
  destruct H as [Hin Hk]. split; [exact Hin |].
  destruct (dict_get k fields); [discriminate | reflexivity].
Qed.

Lemma first_missing_none (fields : pydict) :
  first_missing fields = None <->
  forall k, In k required_keys -> dict_get k fields <> None.
Proof.
  unfold first_missing. split.
  - intros H k Hin E. apply (find_none _ _ H) in Hin. rewrite E in Hin.
    discriminate.
  - intros H. destruct (find _ required_keys) as [k |] eqn:E; [| reflexivity].
    apply find_some in E. destruct E as [Hin Hk].
    specialize (H k Hin). destruct (dict_get k fields); congruence.
Qed.

(** X3. Decoding a server record: anything but a JSON object raises
    [TypeError]; an object that lacks one of "id", "type", "created-at",
    "updated-at", "changes" raises [KeyError] for the first of them that
    is missing, before its type is looked at; an object that has all five
    and a valid type gives the handle of the session with these five
    values and with each of the six optional keys as in the record, or
    [None] when the record does not have it. *)
Theorem Draftset_of_json_decodes
  (self : PublishMyData) (record : json) (w : world) (t : log) :
  (forall fields k,
     record = JObject fields ->
     first_missing fields = Some k ->
     Draftset_of_json self record w t = (inl (KeyError k), t)
     /\ In k required_keys /\ dict_get k fields = None)
  /\ (forall fields,
        record = JObject fields ->
        (forall k, In k required_keys -> dict_get k fields <> None) ->
        valid_type (record_fields self record fields).(type) ->
        Draftset_of_json self record w t
        = (inr (record_fields self record fields), t)
        /\ dict_get "id" fields = Some (record_fields self record fields).(id)
        /\ forall k,
             dict_get k fields = None -> get_or_none record k = PyNone)
  /\ ((forall fields, record <> JObject fields) ->
      Draftset_of_json self record w t = (inl TypeError, t)).
Proof.
  split; [| split].
  - intros fields k -> Hk. rewrite Draftset_of_json_object, Hk.
    split; [reflexivity | exact (first_missing_spec _ _ Hk)].
  - intros fields -> Hall Hv. rewrite Draftset_of_json_object.
    rewrite (proj2 (first_missing_none fields) Hall).
    split; [apply Draftset_init_valid; exact Hv |]. split.
    + cbn. specialize (Hall "id" (or_introl eq_refl)).
      destruct (dict_get "id" fields); congruence.
    + intros k Hk. cbn. rewrite Hk. reflexivity.
  - intros Hno. destruct record as [v | items | fields]; try reflexivity.
    exfalso. exact (Hno fields eq_refl).
Qed.

Lemma Draftset_of_json_decodes_witness :
  Draftset_of_json sample_session sample_record quiet_world []
  = (inr sample_draftset, [])
  /\ Draftset_of_json sample_session
       (JObject [("id", PyStr "abc-123"); ("type", PyStr "Unknown")])
       quiet_world []
     = (inl (KeyError "created-at"), [])
  /\ Draftset_of_json sample_session (JArray []) quiet_world []
     = (inl TypeError, []).
Proof.
  pose proof (Draftset_of_json_decodes sample_session sample_record
                quiet_world []) as [_ [H2 _]].
  pose proof (Draftset_of_json_decodes sample_session
                (JObject [("id", PyStr "abc-123"); ("type", PyStr "Unknown")])
                quiet_world []) as [H1 _].
  pose proof (Draftset_of_json_decodes sample_session (JArray [])
                quiet_world []) as [_ [_ H3]].
  split; [| split].
  - apply (H2 _ eq_refl).
    + intros k [<- | [<- | [<- | [<- | [<- | []]]]]]; discriminate.
    + right. reflexivity.
  - apply (H1 _ _ eq_refl). reflexivity.
  - apply H3. discriminate.
Defined.

Lemma Draftset_of_json_requester (self : PublishMyData) (record : json)
  (d : Draftset) (w : world) (t t' : log) :
  Draftset_of_json self record w t = (inr d, t') ->
  d.(_requester) = self /\ t' = t.
Proof.
  destruct record as [v | items | fields]; try discriminate.
  rewrite Draftset_of_json_object.
  destruct (first_missing fields); [discriminate |].
  intros H. apply Draftset_init_inv in H. destruct H as [-> [-> _]].
  split; reflexivity.
Qed.

(** The outcome of decoding depends on the record alone. *)
Lemma Draftset_of_json_fst (self : PublishMyData) (record : json)
  (w w' : world) (t t' : log) :
  fst (Draftset_of_json self record w t)
  = fst (Draftset_of_json self record w' t').
Proof.
  destruct record as [v | items | fields]; try reflexivity.
  rewrite !Draftset_of_json_object.
  destruct (first_missing fields); [reflexivity |].
  unfold Draftset_init, Draftset_post_init.
  destruct (py_in _ _); reflexivity.
Qed.

(** ** Fetching draftsets *)

Lemma get_draftset_answered (self : PublishMyData) (i u : pyval)
  (w : world) (t : log) (resp : response) :
  is_bool u = true ->
  server w t (get_draftset_request self i u) = Some resp ->
  get_draftset self i u w t
  = if (status_code resp =? 200)%Z then
      match json_body resp with
      | Some data =>
          Draftset_of_json self data w
            (Net (get_draftset_request self i u) :: t)
      | None =>
          (inl JSONDecodeError, Net (get_draftset_request self i u) :: t)
      end
    else
      (match decode_utf8 (content resp) with
       | Some message => inl (RequestException message)
       | None => inl UnicodeDecodeError
       end, Net (get_draftset_request self i u) :: t).
Proof.
  intros Hu Hs. unfold get_draftset. rewrite Hu.
  change (bind (assert true) ?k) with (k tt). cbv beta.
  rewrite (send_bind _ _ _ _ _ Hs).
  destruct (status_code resp =? 200)%Z.
  - unfold response_json. io_step. destruct (json_body resp); reflexivity.
  - unfold raise_for, content_text. io_step.
    destruct (decode_utf8 (content resp)); reflexivity.
Qed.

(** What [get_draftset] ends with depends on the answer alone. *)
Lemma get_draftset_fst (self : PublishMyData) (i u : pyval)
  (w w' : world) (t t' : log) :
  server w t (get_draftset_request self i u)
  = server w' t' (get_draftset_request self i u) ->
  fst (get_draftset self i u w t) = fst (get_draftset self i u w' t').
Proof.
  intros H. destruct (is_bool u) eqn:Hu.
  - destruct (server w' t' (get_draftset_request self i u)) as [resp |]
      eqn:Es.
    + rewrite (get_draftset_answered _ _ _ _ _ _ Hu H),
        (get_draftset_answered _ _ _ _ _ _ Hu Es).
      destruct (status_code resp =? 200)%Z; [| reflexivity].
      destruct (json_body resp); [apply Draftset_of_json_fst | reflexivity].
    + unfold get_draftset. rewrite Hu.
      change (bind (assert true) ?k) with (k tt). cbv beta.
      rewrite !send_bind_none by assumption. reflexivity.
  - unfold get_draftset. rewrite Hu. reflexivity.
Qed.

(** A handle that [get_draftset] returns. *)
Lemma get_draftset_returns (self : PublishMyData) (i u : pyval)
  (w : world) (t t' : log) (d : Draftset) :
  get_draftset self i u w t = (inr d, t') ->
  t' = Net (get_draftset_request self i u) :: t
  /\ d.(_requester) = self
  /\ valid_type d.(type)
  /\ exists resp, server w t (get_draftset_request self i u) = Some resp
                  /\ status_code resp = 200%Z.
Proof.
  intros H.
  destruct (is_bool u) eqn:Hu;
    [| unfold get_draftset in H; rewrite Hu in H; discriminate].
  destruct (server w t (get_draftset_request self i u)) as [resp |] eqn:Es.
  - rewrite (get_draftset_answered _ _ _ _ _ _ Hu Es) in H.
    destruct (status_code resp =? 200)%Z eqn:E200.
    + destruct (json_body resp) as [data |]; [| discriminate].
      destruct (Draftset_of_json_requester _ _ _ _ _ _ H) as [Hr ->].
      destruct (Draftset_of_json_inv _ _ _ _ _ _ H) as [f [_ [_ Hv]]].
      apply Z.eqb_eq in E200. eauto 10.
    + destruct (decode_utf8 (content resp)); discriminate.
  - unfold get_draftset in H. rewrite Hu in H. revert H.
    change (bind (assert true) ?k) with (k tt). cbv beta.
    rewrite (send_bind_none _ _ _ _ Es). discriminate.
Qed.

(** X4. What one [get_draftset] call does with the answer to its single
    GET: a status other than 200 raises [RequestException] with the body
    (or [UnicodeDecodeError] when the body is not UTF-8); a 200 whose body
    is not JSON raises [JSONDecodeError]; a 200 with JSON is decoded as a
    record.  A handle that is returned belongs to the calling session and
    has a valid type, and exactly one request has been made. *)
Theorem get_draftset_outcome
  (self : PublishMyData) (i u : pyval) (w : world) (t : log)
  (resp : response) :
  let req := get_draftset_request self i u in
  is_bool u = true ->
  server w t req = Some resp ->
  (status_code resp <> 200%Z ->
   get_draftset self i u w t
   = (match decode_utf8 (content resp) with
      | Some message => inl (RequestException message)
      | None => inl UnicodeDecodeError
      end, Net req :: t))
  /\ (status_code resp = 200%Z -> json_body resp = None ->
      get_draftset self i u w t = (inl JSONDecodeError, Net req :: t))
  /\ (status_code resp = 200%Z ->
      forall data, json_body resp = Some data ->
        get_draftset self i u w t
        = Draftset_of_json self data w (Net req :: t))
  /\ (forall d t',
        get_draftset self i u w t = (inr d, t') ->
        t' = Net req :: t
        /\ d.(_requester) = self
        /\ valid_type d.(type)
        /\ status_code resp = 200%Z).
Proof.
  intros req Hu Hs.
  pose proof (get_draftset_answered _ _ _ _ _ _ Hu Hs) as E. fold req in E.
  split; [| split; [| split]].
  - intros Hne. apply Z.eqb_neq in Hne. rewrite Hne in E. exact E.
  - intros H200 Hj. apply Z.eqb_eq in H200. rewrite H200, Hj in E. exact E.
  - intros H200 data Hj. apply Z.eqb_eq in H200. rewrite H200, Hj in E.
    exact E.
  - intros d t' H.
    destruct (get_draftset_returns _ _ _ _ _ _ _ H)
      as [Ht [Hr [Hv [resp' [Es' E200]]]]].
    fold req in Es'. rewrite Hs in Es'. injection Es' as <-. auto.
Qed.

Lemma get_draftset_outcome_witness :
  get_draftset sample_session (PyStr "abc-123") (PyBool false)
               record_world []
  = (inr sample_draftset,
     [Net (get_draftset_request sample_session (PyStr "abc-123")
                                (PyBool false))])
  /\ get_draftset sample_session (PyStr "abc-123") (PyBool false)
                  denying_world []
     = (inl (RequestException "no"),
        [Net (get_draftset_request sample_session (PyStr "abc-123")
                                   (PyBool false))]).
Proof.
  split.
  - pose proof (get_draftset_outcome sample_session (PyStr "abc-123")
                  (PyBool false) record_world [] draftset_record
                  eq_refl eq_refl) as [_ [_ [H _]]].
    rewrite (H eq_refl _ eq_refl). reflexivity.
  - pose proof (get_draftset_outcome sample_session (PyStr "abc-123")
                  (PyBool false) denying_world [] denied
                  eq_refl eq_refl) as [H _].
    apply H. discriminate.
Defined.

(** X5. Fetching the same draftset twice in a row from a server that
    answers the second GET as it answered the first gives two equal
    handles. *)
Theorem get_draftset_twice
  (self : PublishMyData) (i u : pyval) (w : world) (t t' : log)
  (d1 d2 : Draftset) :
  let req := get_draftset_request self i u in
  server w (Net req :: t) req = server w t req ->
  (d1 <- get_draftset self i u ;;
   d2 <- get_draftset self i u ;;
   ret (d1, d2)) w t = (inr (d1, d2), t') ->
  d1 = d2 /\ t' = Net req :: Net req :: t.
Proof.
  intros req Hsame. io_step.
  destruct (get_draftset self i u w t) as [[e | x1] t1] eqn:E1;
    [discriminate |].
  assert (Ht1 : t1 = Net req :: t).
  { pose proof (extends_get_draftset self i u w t) as [l Hl].
    destruct (is_bool u) eqn:Hu.
    - pose proof (get_draftset_log self i u w t Hu) as Hlog.
      rewrite E1 in Hlog. exact Hlog.
    - unfold get_draftset in E1. rewrite Hu in E1. discriminate. }
  subst t1.
  destruct (get_draftset self i u w (Net req :: t)) as [[e | x2] t2] eqn:E2;
    [discriminate |].
  intros H. injection H as <- <- <-.
  pose proof (get_draftset_fst self i u w w (Net req :: t) t Hsame) as F.
  rewrite E1, E2 in F. cbn in F. split; [congruence |].
  destruct (is_bool u) eqn:Hu.
  - pose proof (get_draftset_log self i u w (Net req :: t) Hu) as Hlog.
    rewrite E2 in Hlog. exact Hlog.
  - unfold get_draftset in E2. rewrite Hu in E2. discriminate.
Qed.

Lemma get_draftset_twice_witness :
  (d1 <- get_draftset sample_session (PyStr "abc-123") (PyBool false) ;;
   d2 <- get_draftset sample_session (PyStr "abc-123") (PyBool false) ;;
   ret (d1, d2)) record_world []
  = (inr (sample_draftset, sample_draftset),
     [Net (get_draftset_request sample_session (PyStr "abc-123")
                                (PyBool false));
      Net (get_draftset_request sample_session (PyStr "abc-123")
                                (PyBool false))])
  /\ sample_draftset = sample_draftset.
Proof.
  split; [reflexivity |].
  apply (get_draftset_twice sample_session (PyStr "abc-123") (PyBool false)
           record_world [] _ sample_draftset sample_draftset eq_refl
           eq_refl).
Defined.

(** ** Listing draftsets: the result *)

Lemma for_each_inv {A B : Type} (f : A -> io B) (items : list A)
  (w : world) (t t' : log) (xs : list B) :
  (forall a, keeps_log (f a)) ->
  for_each f items w t = (inr xs, t') ->
  t' = t /\ Forall2 (fun a x => f a w t = (inr x, t)) items xs.
Proof.
  intros Hf. revert xs t'.
  induction items as [| a rest IH]; cbn [for_each]; intros xs t'.
  - intros H. injection H as <- <-. split; constructor.
  - io_step. pose proof (Hf a w t) as Ha.
    destruct (f a w t) as [[e | x] t1] eqn:Ea; [discriminate |].
    cbn in Ha. subst t1.
    destruct (for_each f rest w t) as [[e | xs'] t2] eqn:Er; [discriminate |].
    destruct (IH xs' t2 eq_refl) as [-> HF].
    intros H. injection H as <- <-. split; [reflexivity |].
    constructor; assumption.
Qed.

Lemma for_each_fails {A B : Type} (f : A -> io B) (items : list A)
  (w : world) (t : log) (a : A) (e : exn) :
  (forall a, keeps_log (f a)) ->
  In a items ->
  f a w t = (inl e, t) ->
  exists e', for_each f items w t = (inl e', t).
Proof.
  intros Hf Hin Ha. induction items as [| b rest IH]; [contradiction |].
  cbn [for_each]. io_step. pose proof (Hf b w t) as Hb.
  destruct (f b w t) as [[eb | x] t1] eqn:Eb; cbn in Hb; subst t1.
  - exists eb. reflexivity.
  - destruct Hin as [-> | Hin]; [congruence |].
    destruct (IH Hin) as [e' He']. rewrite He'. exists e'. reflexivity.
Qed.

Lemma get_draftsets_answered (self : PublishMyData) (i u : pyval)
  (w : world) (t : log) (resp : response) :
  py_in i [Some "owned"; Some "claimable"; Some "all"] = true ->
  is_bool u = true ->
  server w t (get_draftsets_request self i u) = Some resp ->
  get_draftsets self i u w t
  = if (status_code resp =? 200)%Z then
      (data <- response_json resp ;;
       items <- py_iter data ;;
       for_each (Draftset_of_json self) items) w
        (Net (get_draftsets_request self i u) :: t)
    else raise_for resp w (Net (get_draftsets_request self i u) :: t).
Proof.
  intros Hi Hu Hs. unfold get_draftsets. rewrite Hi, Hu.
  change (bind (assert true) ?k) with (k tt). cbv beta.
  change (bind (assert true) ?k) with (k tt). cbv beta.
  rewrite (send_bind _ _ _ _ _ Hs).
  destruct (status_code resp =? 200)%Z; reflexivity.
Qed.

(** X6. When [get_draftsets] returns a list, one request was made and
    answered with status 200 and a JSON body; the list has one handle for
    each item of the body, in the order of the body, each the decoding of
    its item, each of the calling session and of a valid type.  It is all
    or nothing: if one item of a 200 answer does not decode, the call
    raises and no handle is returned. *)
Theorem get_draftsets_returns
  (self : PublishMyData) (i u : pyval) (w : world) (t : log) :
  let req := get_draftsets_request self i u in
  (forall ds t',
     get_draftsets self i u w t = (inr ds, t') ->
     t' = Net req :: t
     /\ exists resp data items,
          server w t req = Some resp
          /\ status_code resp = 200%Z
          /\ json_body resp = Some data
          /\ py_iter data w t' = (inr items, t')
          /\ length ds = length items
          /\ Forall2 (fun item d =>
                        Draftset_of_json self item w t' = (inr d, t'))
                     items ds
          /\ Forall (fun d => d.(_requester) = self /\ valid_type d.(type))
                    ds)
  /\ (forall resp items item e,
        py_in i [Some "owned"; Some "claimable"; Some "all"] = true ->
        is_bool u = true ->
        server w t req = Some resp ->
        status_code resp = 200%Z ->
        json_body resp = Some (JArray items) ->
        In item items ->
        fst (Draftset_of_json self item w t) = inl e ->
        exists e', get_draftsets self i u w t = (inl e', Net req :: t)).
Proof.
  intros req. split.
  - intros ds t' H.
    destruct (py_in i [Some "owned"; Some "claimable"; Some "all"]) eqn:Hi;
      [| unfold get_draftsets in H; rewrite Hi in H; discriminate].
    destruct (is_bool u) eqn:Hu;
      [| unfold get_draftsets in H; rewrite Hi, Hu in H; discriminate].
    destruct (server w t req) as [resp |] eqn:Es.
    + rewrite (get_draftsets_answered _ _ _ _ _ _ Hi Hu Es) in H.
      fold req in H.
      destruct (status_code resp =? 200)%Z eqn:E200.
      * unfold response_json in H. revert H. io_step.
        destruct (json_body resp) as [data |] eqn:Ej; [| discriminate].
        pose proof (keeps_py_iter data w (Net req :: t)) as Hk.
        destruct (py_iter data w (Net req :: t)) as [[e | items] t1] eqn:Ep;
          [discriminate |].
        cbn in Hk. subst t1. intros H.
        apply for_each_inv in H; [| apply keeps_Draftset_of_json].
        destruct H as [-> HF]. split; [reflexivity |].
        exists resp, data, items. apply Z.eqb_eq in E200.
        repeat (split; [assumption || reflexivity |]).
        split; [symmetry; exact (Forall2_length HF) |].
        split; [exact HF |].
        clear - HF. induction HF as [| item d items ds Hd _ IH];
          constructor; [| exact IH].
        split; [apply (Draftset_of_json_requester _ _ _ _ _ _ Hd) |].
        destruct (Draftset_of_json_inv _ _ _ _ _ _ Hd) as [f [_ [_ Hv]]].
        exact Hv.
      * unfold raise_for, content_text in H. revert H. io_step.
        destruct (decode_utf8 (content resp)); discriminate.
    + unfold get_draftsets in H. rewrite Hi, Hu in H. revert H.
      change (bind (assert true) ?k) with (k tt). cbv beta.
      change (bind (assert true) ?k) with (k tt). cbv beta.
      rewrite (send_bind_none _ _ _ _ Es). discriminate.
  - intros resp items item e Hi Hu Es H200 Hj Hin Hfail.
    rewrite (get_draftsets_answered _ _ _ _ _ _ Hi Hu Es). fold req.
    apply Z.eqb_eq in H200. rewrite H200.
    unfold response_json. io_step. rewrite Hj. cbn [py_iter]. io_step.
    apply (for_each_fails _ _ _ _ item e);
      [apply keeps_Draftset_of_json | exact Hin |].
    pose proof (keeps_Draftset_of_json self item w (Net req :: t)) as Hk.
    rewrite (Draftset_of_json_fst self item w w t (Net req :: t)) in Hfail.
    destruct (Draftset_of_json self item w (Net req :: t)) as [r t1].
    cbn in *. subst. reflexivity.
Qed.

Lemma get_draftsets_returns_witness :
  get_draftsets sample_session (PyStr "all") (PyBool false) list_world []
  = (inr [sample_draftset; sample_draftset],
     [Net (get_draftsets_request sample_session (PyStr "all")
                                 (PyBool false))])
  /\ length [sample_draftset; sample_draftset] = 2%nat.
Proof.
  split; [reflexivity |].
  pose proof (get_draftsets_returns sample_session (PyStr "all")
                (PyBool false) list_world []) as [H _].
  destruct (H [sample_draftset; sample_draftset] _ eq_refl)
    as [_ [resp [data [items [Es [_ [Ej [Ep [Hlen _]]]]]]]]].
  injection Es as <-. injection Ej as <-. injection Ep as <-.
  exact Hlen.
Defined.

(** ** Deleting and publishing *)

(** X7. [delete] makes one DELETE request and returns only [True]: it
    returns exactly when the answer has status 202, and on any other
    status, 200 included, it raises [RequestException] with the body (or
    [UnicodeDecodeError] when the body is not UTF-8). *)
Theorem delete_returns_true
  (self : Draftset) (metadata : pyval) (w : world) (t : log) :
  let req := delete_request self metadata in
  (forall b t',
     delete self metadata w t = (inr b, t') ->
     b = true /\ t' = Net req :: t
     /\ exists resp, server w t req = Some resp
                     /\ status_code resp = 202%Z)
  /\ (forall resp,
        server w t req = Some resp ->
        (status_code resp = 202%Z ->
         delete self metadata w t = (inr true, Net req :: t))
        /\ (status_code resp <> 202%Z ->
            delete self metadata w t
            = (match decode_utf8 (content resp) with
               | Some message => inl (RequestException message)
               | None => inl UnicodeDecodeError
               end, Net req :: t)))
  /\ req_method req = DELETE.
Proof.
  intros req. unfold delete. fold req. split; [| split; [| reflexivity]].
  - intros b t'.
    destruct (server w t req) as [resp |] eqn:Es;
      [rewrite (send_bind _ _ _ _ _ Es)
      | rewrite (send_bind_none _ _ _ _ Es); discriminate].
    destruct (status_code resp =? 202)%Z eqn:E.
    + intros H. injection H as <- <-. apply Z.eqb_eq in E. eauto.
    + unfold raise_for, content_text. io_step.
      destruct (decode_utf8 (content resp)); discriminate.
  - intros resp Es. rewrite (send_bind _ _ _ _ _ Es). split.
    + intros E. apply Z.eqb_eq in E. rewrite E. reflexivity.
    + intros E. apply Z.eqb_neq in E. rewrite E.
      unfold raise_for, content_text. io_step.
      destruct (decode_utf8 (content resp)); reflexivity.
Qed.

Lemma delete_returns_true_witness :
  delete sample_draftset PyNone accepting_world []
  = (inr true, [Net (delete_request sample_draftset PyNone)])
  /\ delete sample_draftset PyNone quiet_world []
     = (inl (RequestException ""),
        [Net (delete_request sample_draftset PyNone)]).
Proof.
  pose proof (delete_returns_true sample_draftset PyNone accepting_world [])
    as [_ [H1 _]].
  pose proof (delete_returns_true sample_draftset PyNone quiet_world [])
    as [_ [H2 _]].
  split.
  - apply (H1 accepted eq_refl). reflexivity.
  - apply (H2 ok_response eq_refl). discriminate.
Defined.

(** X8. [publish] and [append_data] do not look at the answer: once the
    request is answered, whatever the status and the body, [publish]
    returns [None]; so does [append_data] when its checks pass and the
    file reads as text. *)
Theorem status_is_ignored
  (self : Draftset) (metadata : pyval) (w : world) (t : log) :
  (forall resp,
     server w t (publish_request self metadata) = Some resp ->
     publish self metadata w t
     = (inr tt, Net (publish_request self metadata) :: t))
  /\ (forall filepath extension content_type graph content_encoding c
             bs text resp,
        passes_checks extension content_type graph content_encoding c ->
        files w filepath = Some bs ->
        decode (locale w) bs = Some text ->
        let req := append_data_request self c graph metadata
                     content_encoding (universal_newlines text) in
        server w (Open filepath :: t) req = Some resp ->
        append_data self filepath extension content_type graph metadata
                    content_encoding w t
        = (inr tt, Net req :: Open filepath :: t)).
Proof.
  split.
  - intros resp Es. unfold publish. rewrite (send_bind _ _ _ _ _ Es).
    reflexivity.
  - intros filepath extension content_type graph content_encoding c bs text
      resp [H1 [H2 [H3 [Hc [Hg H6]]]]] Hf Hd req Es.
    rewrite (append_data_accepts _ _ _ _ _ _ _ c) by assumption.
    unfold upload, open_read. io_step. rewrite Hf, Hd.
    unfold send. fold req. rewrite Es. reflexivity.
Qed.

Lemma status_is_ignored_witness :
  publish sample_draftset PyNone denying_world []
  = (inr tt, [Net (publish_request sample_draftset PyNone)]).
Proof.
  apply (proj1 (status_is_ignored sample_draftset PyNone denying_world [])
           denied).
  reflexivity.
Defined.

(** ** Claiming and submitting: the refetch *)

Lemma refetch_outcome (self : Draftset) (resp : response)
  (w : world) (t : log) :
  (if (status_code resp =? 200)%Z
   then get_draftset self.(_requester) self.(id) (PyBool false)
   else raise_for resp) w t
  = if (status_code resp =? 200)%Z
    then get_draftset self.(_requester) self.(id) (PyBool false) w t
    else (match decode_utf8 (content resp) with
          | Some message => inl (RequestException message)
          | None => inl UnicodeDecodeError
          end, t).
Proof.
  destruct (status_code resp =? 200)%Z; [reflexivity |].
  unfold raise_for, content_text. io_step.
  destruct (decode_utf8 (content resp)); reflexivity.
Qed.

Lemma refetch_returns (self : Draftset) (resp : response)
  (w : world) (t t' : log) (d : Draftset) :
  (if (status_code resp =? 200)%Z
   then get_draftset self.(_requester) self.(id) (PyBool false)
   else raise_for resp) w t = (inr d, t') ->
  status_code resp = 200%Z
  /\ d.(_requester) = self.(_requester)
  /\ valid_type d.(type)
  /\ t' = Net (get_draftset_request self.(_requester) self.(id)
                                    (PyBool false)) :: t.
Proof.
  rewrite refetch_outcome.
  destruct (status_code resp =? 200)%Z eqn:E;
    [| destruct (decode_utf8 (content resp)); discriminate].
  intros H. apply Z.eqb_eq in E. split; [exact E |].
  destruct (get_draftset_returns _ _ _ _ _ _ _ H) as [Ht [Hr [Hv _]]].
  auto.
Qed.

(** X9. [claim] and [submit_to] end with a refetch: when the POST is
    answered with status 200 the outcome is that of [get_draftset] on the
    handle's own id and session, made after the POST; on any other status
    they raise with the body and fetch nothing.  A handle they return is a
    valid one of the same session, and exactly two requests were made: the
    POST, then the GET. *)
Theorem claim_submit_refetch
  (self : Draftset) (role user : pyval) (w : world) (t : log) :
  (forall resp,
     server w t (claim_request self) = Some resp ->
     claim self w t
     = if (status_code resp =? 200)%Z
       then get_draftset self.(_requester) self.(id) (PyBool false) w
                         (Net (claim_request self) :: t)
       else (match decode_utf8 (content resp) with
             | Some message => inl (RequestException message)
             | None => inl UnicodeDecodeError
             end, Net (claim_request self) :: t))
  /\ (forall d t',
        claim self w t = (inr d, t') ->
        d.(_requester) = self.(_requester)
        /\ valid_type d.(type)
        /\ t' = Net (get_draftset_request self.(_requester) self.(id)
                                          (PyBool false))
                :: Net (claim_request self) :: t)
  /\ (forall resp,
        xorb (truthy role) (truthy user) = true ->
        py_in role submit_to_roles = true ->
        is_str user || is_none user = true ->
        server w t (submit_to_request self role user) = Some resp ->
        submit_to self role user w t
        = if (status_code resp =? 200)%Z
          then get_draftset self.(_requester) self.(id) (PyBool false) w
                            (Net (submit_to_request self role user) :: t)
          else (match decode_utf8 (content resp) with
                | Some message => inl (RequestException message)
                | None => inl UnicodeDecodeError
                end, Net (submit_to_request self role user) :: t))
  /\ (forall d t',
        submit_to self role user w t = (inr d, t') ->
        d.(_requester) = self.(_requester)
        /\ valid_type d.(type)
        /\ t' = Net (get_draftset_request self.(_requester) self.(id)
                                          (PyBool false))
                :: Net (submit_to_request self role user) :: t).
Proof.
  split; [| split; [| split]].
  - intros resp Es. unfold claim. rewrite (send_bind _ _ _ _ _ Es).
    apply refetch_outcome.
  - intros d t'. unfold claim.
    destruct (server w t (claim_request self)) as [resp |] eqn:Es;
      [rewrite (send_bind _ _ _ _ _ Es)
      | rewrite (send_bind_none _ _ _ _ Es); discriminate].
    intros H. apply refetch_returns in H. tauto.
  - intros resp Hx Hr Hu Es. unfold submit_to.
    unfold submit_to_roles in Hr. rewrite Hr, Hu, Hx.
    do 3 (change (bind (assert true) ?k) with (k tt); cbv beta).
    rewrite (send_bind _ _ _ _ _ Es). apply refetch_outcome.
  - intros d t'. unfold submit_to.
    destruct (py_in role _); [| discriminate].
    destruct (is_str user || is_none user); [| discriminate].
    destruct (xorb (truthy role) (truthy user)); [| discriminate].
    do 3 (change (bind (assert true) ?k) with (k tt); cbv beta).
    destruct (server w t (submit_to_request self role user)) as [resp |]
      eqn:Es;
      [rewrite (send_bind _ _ _ _ _ Es)
      | rewrite (send_bind_none _ _ _ _ Es); discriminate].
    intros H. apply refetch_returns in H. tauto.
Qed.

Lemma claim_submit_refetch_witness :
  claim sample_draftset record_world []
  = (inr sample_draftset,
     [Net (get_draftset_request sample_session (PyStr "abc-123")
                                (PyBool false));
      Net (claim_request sample_draftset)])
  /\ submit_to sample_draftset (PyStr "editor") PyNone denying_world []
     = (inl (RequestException "no"),
        [Net (submit_to_request sample_draftset (PyStr "editor") PyNone)]).
Proof.
  pose proof (claim_submit_refetch sample_draftset (PyStr "editor") PyNone
                record_world []) as [H1 _].
  pose proof (claim_submit_refetch sample_draftset (PyStr "editor") PyNone
                denying_world []) as [_ [_ [H3 _]]].
  split.
  - rewrite (H1 draftset_record eq_refl). reflexivity.
  - rewrite (H3 denied eq_refl eq_refl eq_refl eq_refl). reflexivity.
Defined.

(** ** Uploading data: the checks as a whole *)

Lemma extension_lookup_valid (extension : pyval) :
  py_in extension extensions = true ->
  truthy extension = true ->
  exists c, extension_lookup extension = Some c
            /\ py_in c content_types = true /\ c <> PyNone.
Proof.
  intros H Ht. apply py_in_literal in H. destruct H as [k [Hin ->]].
  unfold extensions in Hin.
  repeat (destruct Hin as [<- | Hin];
          [eexists; split; [reflexivity | split; [reflexivity | discriminate]]
          |]).
  destruct Hin as [<- | []]. discriminate.
Qed.

(** X10. The checks of [append_data] are all there is before the file is
    opened: when the arguments pass them the call is the upload with a
    content type that is one of the six MIME types; when they do not, the
    call raises [AssertionError] with nothing opened and nothing sent.  No
    other exception, in particular no [KeyError] from the extension table,
    can come out of the checks. *)
Theorem append_data_validates
  (self : Draftset) (filepath : string)
  (extension content_type graph metadata content_encoding : pyval)
  (w : world) (t : log) :
  (forall c,
     passes_checks extension content_type graph content_encoding c ->
     append_data self filepath extension content_type graph metadata
                 content_encoding w t
     = upload self filepath c graph metadata content_encoding w t
     /\ py_in c content_types = true /\ c <> PyNone)
  /\ ((forall c,
         ~ passes_checks extension content_type graph content_encoding c) ->
      fails_before_io
        (append_data self filepath extension content_type graph metadata
                     content_encoding)
        AssertionError w t).
Proof.
  split.
  - intros c [H1 [H2 [H3 [Hc [Hg H6]]]]].
    split; [apply append_data_accepts; assumption |].
    unfold resolved_content_type in Hc.
    destruct (truthy extension) eqn:Et.
    + destruct (extension_lookup_valid _ H2 Et) as [c' [Hc' Hv]].
      rewrite Hc in Hc'. injection Hc' as <-. exact Hv.
    + injection Hc as <-. split; [exact H3 |].
      intros ->. unfold py_or in H1. rewrite Et in H1. discriminate.
  - intros Hno. unfold append_data.
    destruct (truthy (py_or extension content_type)) eqn:H1;
      [| apply assert_false_fails; reflexivity].
    apply assert_true_fails; [reflexivity |].
    destruct (py_in extension
                [Some ".trig"; Some ".ttl"; Some ".nq"; Some ".trix";
                 Some ".nt"; Some ".rdf"; None]) eqn:H2;
      [| apply assert_false_fails; reflexivity].
    apply assert_true_fails; [reflexivity |].
    destruct (py_in content_type
                [Some "application/trig"; Some "text/turtle";
                 Some "application/n-quads"; Some "application/trix";
                 Some "application/n-triples"; Some "application/rdf+xml";
                 None]) eqn:H3;
      [| apply assert_false_fails; reflexivity].
    apply assert_true_fails; [reflexivity |].
    assert (Hc : exists c,
               resolved_content_type extension content_type = Some c).
    { unfold resolved_content_type. destruct (truthy extension) eqn:Et.
      - destruct (extension_lookup_valid _ H2 Et) as [c [Hc _]]. eauto.
      - eauto. }
    destruct Hc as [c Hc]. rewrite (resolved_step _ _ _ Hc).
    unfold fails_before_io. io_step.
    destruct (py_in c [Some "text/turtle"; Some "application/trix";
                       Some "application/n-triples";
                       Some "application/rdf+xml"]) eqn:Htriple;
      [destruct (truthy graph) eqn:Hg; [| reflexivity] |];
      (destruct (py_in content_encoding [Some "gzip"; Some "x-gzip"; None])
         eqn:H6; [| reflexivity]);
      exfalso; apply (Hno c);
      unfold passes_checks, extensions, content_types, triple_types,
        content_encodings;
      repeat split; try assumption; intros; try assumption; congruence.
Qed.

Lemma append_data_validates_witness :
  append_data sample_draftset "data.trig" (PyStr ".trig") PyNone PyNone
              PyNone (PyStr "gzip") quiet_world []
  = upload sample_draftset "data.trig" (PyStr "application/trig") PyNone
           PyNone (PyStr "gzip") quiet_world []
  /\ fails_before_io
       (append_data sample_draftset "data.trig" (PyStr ".trig") PyNone
                    PyNone PyNone (PyStr "deflate"))
       AssertionError quiet_world [].
Proof.
  split.
  - apply (proj1 (append_data_validates sample_draftset "data.trig"
                    (PyStr ".trig") PyNone PyNone PyNone (PyStr "gzip")
                    quiet_world [])).
    unfold passes_checks. repeat split. discriminate.
  - apply (proj2 (append_data_validates sample_draftset "data.trig"
                    (PyStr ".trig") PyNone PyNone PyNone (PyStr "deflate")
                    quiet_world [])).
    intros c [_ [_ [_ [_ [_ H]]]]]. discriminate H.
Defined.



(** ** Uploading data: line endings *)

Lemma universal_newlines_cons (c : ascii) (s : string) :
  universal_newlines (String c s)
  = if Ascii.eqb c CR then
      match s with
      | String c' s' =>
          if Ascii.eqb c' LF then String LF (universal_newlines s')
          else String LF (universal_newlines s)
      | EmptyString => String LF (universal_newlines s)
      end
    else String c (universal_newlines s).
Proof. reflexivity. Qed.

Lemma universal_newlines_no_cr (s : string) :
  has_char CR (universal_newlines s) = false.
Proof.
  assert (H : has_char CR (universal_newlines s) = false
              /\ forall c, has_char CR (universal_newlines (String c s))
                           = false).
  { induction s as [| c' rest [IH1 IH2]].
    - split; [reflexivity |]. intros c. cbn [universal_newlines].
      destruct (Ascii.eqb c CR) eqn:E; cbn [has_char universal_newlines];
        [reflexivity |].
      rewrite E. reflexivity.
    - split; [apply IH2 |]. intros c.
      rewrite universal_newlines_cons. destruct (Ascii.eqb c CR) eqn:E.
      + destruct (Ascii.eqb c' LF).
        * cbn [has_char]. rewrite IH1. reflexivity.
        * cbn [has_char]. rewrite (IH2 c'). reflexivity.
      + cbn [has_char]. rewrite E. apply IH2. }
  apply H.
Qed.

Lemma universal_newlines_id (s : string) :
  has_char CR s = false -> universal_newlines s = s.
Proof.
  induction s as [| c rest IH]; [reflexivity |].
  cbn [has_char universal_newlines].
  destruct (Ascii.eqb c CR); cbn [orb]; [discriminate |].
  intros H. rewrite (IH H). reflexivity.
Qed.

(** X12. The body that [append_data] sends is the text of the file with
    its line endings translated as text mode does: a CR followed by LF
    becomes the one LF, a CR not followed by LF becomes LF, and every
    other character stays as it is and where it is.  So, whatever the file
    holds, no request of [append_data] carries a carriage return in its
    body, and a file that decodes to text without a carriage return is
    passed on as that text, unchanged. *)
Theorem append_data_line_endings
  (self : Draftset) (filepath : string)
  (extension content_type graph metadata content_encoding : pyval)
  (w : world) (t : log) :
  (exists later,
     snd (append_data self filepath extension content_type graph metadata
                      content_encoding w t) = (later ++ t)%list
     /\ Forall no_carriage_return later)
  /\ (forall c bs text,
        passes_checks extension content_type graph content_encoding c ->
        files w filepath = Some bs ->
        decode (locale w) bs = Some text ->
        snd (append_data self filepath extension content_type graph
                         metadata content_encoding w t)
        = Net (append_data_request self c graph metadata content_encoding
                                   (universal_newlines text))
          :: Open filepath :: t)
  /\ universal_newlines "" = ""
  /\ (forall s,
        universal_newlines (String CR (String LF s))
        = String LF (universal_newlines s))
  /\ (forall s,
        (forall rest, s <> String LF rest) ->
        universal_newlines (String CR s) = String LF (universal_newlines s))
  /\ (forall c s,
        c <> CR ->
        universal_newlines (String c s) = String c (universal_newlines s))
  /\ (forall text, has_char CR text = false -> universal_newlines text = text).
Proof.
  split; [| split; [| split; [reflexivity | split; [reflexivity |
                                 split; [| split]]]]].
  - destruct (append_data self filepath extension content_type graph
                metadata content_encoding w t) as [r t'] eqn:E.
    assert (Hcases :
              t' = t
              \/ exists c, (r, t') = upload self filepath c graph metadata
                                            content_encoding w t).
    { unfold append_data in E. revert E.
      destruct (truthy (py_or extension content_type));
        [| intros E; injection E as <- <-; auto].
      destruct (py_in extension _); [| intros E; injection E as <- <-; auto].
      destruct (py_in content_type _);
        [| intros E; injection E as <- <-; auto].
      do 3 (change (bind (assert true) ?k) with (k tt); cbv beta).
      destruct (truthy extension).
      - unfold extension_map_getitem.
        destruct (extension_lookup extension) as [c |];
          [| intros E; injection E as <- <-; auto].
        io_step.
        destruct (py_in c _); [destruct (truthy graph) |];
          try destruct (py_in content_encoding _);
          intros E; try (injection E as <- <-; auto; fail);
          right; exists c; rewrite <- E; reflexivity.
      - io_step.
        destruct (py_in content_type _); [destruct (truthy graph) |];
          try destruct (py_in content_encoding _);
          intros E; try (injection E as <- <-; auto; fail);
          right; exists content_type; rewrite <- E; reflexivity. }
    destruct Hcases as [-> | [c Hc]].
    + exists []. split; [reflexivity | constructor].
    + unfold upload, open_read, send in Hc. revert Hc. io_step.
      destruct (files w filepath) as [bs |];
        [destruct (decode (locale w) bs) as [text |] |].
      * destruct (server w _ _); intros Hc; injection Hc as _ ->;
          (eexists [_; _]; split; [reflexivity |]);
          repeat constructor;
          eexists; (split; [reflexivity | apply universal_newlines_no_cr]).
      * intros Hc. injection Hc as _ ->. exists [Open filepath].
        split; [reflexivity | repeat constructor].
      * intros Hc. injection Hc as _ ->. exists [Open filepath].
        split; [reflexivity | repeat constructor].
  - intros c bs text [H1 [H2 [H3 [Hc [Hg H6]]]]] Hf Hd.
    rewrite (append_data_accepts _ _ _ _ _ _ _ c) by assumption.
    exact (upload_log _ _ _ _ _ _ _ _ _ _ Hf Hd).
  - intros s Hs. rewrite universal_newlines_cons.
    change (Ascii.eqb CR CR) with true. cbv iota.
    destruct s as [| c' s']; [reflexivity |].
    destruct (Ascii.eqb c' LF) eqn:E; [| reflexivity].
    apply Ascii.eqb_eq in E. subst c'. exfalso. exact (Hs s' eq_refl).
  - intros c s Hc. rewrite universal_newlines_cons.
    apply Ascii.eqb_neq in Hc. rewrite Hc. reflexivity.
  - apply universal_newlines_id.
Qed.

Lemma append_data_line_endings_witness :
  snd (append_data sample_draftset "data.trig" (PyStr ".trig") PyNone
                   PyNone PyNone PyNone (file_world mixed_bytes UTF8) [])
  = [Net (append_data_request sample_draftset (PyStr "application/trig")
            PyNone PyNone PyNone mixed_text);
     Open "data.trig"].
Proof.
  assert (H : passes_checks (PyStr ".trig") PyNone PyNone PyNone
                            (PyStr "application/trig")).
  { unfold passes_checks. repeat split. discriminate. }
  exact (proj1 (proj2 (append_data_line_endings sample_draftset "data.trig"
                         (PyStr ".trig") PyNone PyNone PyNone PyNone
                         (file_world mixed_bytes UTF8) []))
           (PyStr "application/trig") mixed_bytes
           (string_of_list_byte mixed_bytes) H eq_refl eq_refl).
Defined.

(** ** What the operations send *)

(** X13. [get_draftset] and [get_draftsets] refuse a [union_with_live]
    that is not a [bool] with [AssertionError] before any request;
    [create_draftset] checks nothing: whatever its arguments, its first
    effect is the POST, which carries [union_with_live] as given. *)
Theorem union_with_live_checked
  (self : PublishMyData) (i include n d u : pyval) (w : world) (t : log) :
  (is_bool u = false ->
   fails_before_io (get_draftset self i u) AssertionError w t
   /\ fails_before_io (get_draftsets self include u) AssertionError w t)
  /\ first_effect (create_draftset self n d u)
                  (Net (create_draftset_request self n d u)) w t
  /\ req_data (create_draftset_request self n d u)
     = FormData [("display-name", n); ("description", d);
                 ("union-with-live", u)].
Proof.
  split; [| split; [| reflexivity]].
  - intros Hu. split.
    + unfold get_draftset. apply assert_false_fails. exact Hu.
    + unfold get_draftsets.
      destruct (py_in include _); [| apply assert_false_fails; reflexivity].
      apply assert_true_fails; [reflexivity |].
      apply assert_false_fails. exact Hu.
  - unfold create_draftset. apply first_effect_send. intros resp.
    auto 10 with io_log.
Qed.

Lemma union_with_live_checked_witness :
  fails_before_io (get_draftset sample_session (PyStr "abc-123")
                                (PyStr "yes"))
                  AssertionError quiet_world []
  /\ fails_before_io (get_draftsets sample_session (PyStr "all")
                                    (PyStr "yes"))
                     AssertionError quiet_world [].
Proof.
  apply (proj1 (union_with_live_checked sample_session (PyStr "abc-123")
                  (PyStr "all") PyNone PyNone (PyStr "yes") quiet_world [])).
  reflexivity.
Defined.

Lemma adds_keeps (P : event -> Prop) {A : Type} (m : io A) :
  keeps_log m -> adds P 0 m.
Proof.
  intros H w t. exists []. rewrite H. repeat split; constructor.
Qed.

Lemma adds_bind (P : event -> Prop) (n1 n2 n : nat) {A B : Type}
  (m : io A) (k : A -> io B) :
  adds P n1 m -> (forall a, adds P n2 (k a)) -> (n1 + n2 <= n)%nat ->
  adds P n (bind m k).
Proof.
  intros Hm Hk Hn w t. destruct (Hm w t) as [l1 [H1 [F1 L1]]]. io_step.
  destruct (m w t) as [[e | a] t1]; cbn in H1; subst t1.
  - exists l1. repeat split; [exact F1 | lia].
  - destruct (Hk a w (l1 ++ t)%list) as [l2 [H2 [F2 L2]]].
    exists (l2 ++ l1)%list. rewrite H2, app_assoc.
    repeat split; [apply Forall_app; auto | rewrite length_app; lia].
Qed.

Lemma adds_send (P : event -> Prop) (r : request) :
  P (Net r) -> adds P 1 (send r).
Proof.
  intros H w t. exists [Net r]. unfold send.
  destruct (server w t r); repeat split; auto.
Qed.

Lemma adds_open_read (P : event -> Prop) (path : string) :
  P (Open path) -> adds P 1 (open_read path).
Proof.
  intros H w t. exists [Open path]. unfold open_read.
  destruct (files w path) as [bs |]; [destruct (decode _ bs) |];
    repeat split; auto.
Qed.

Lemma adds_if (P : event -> Prop) (n : nat) {A : Type} (b : bool)
  (m1 m2 : io A) :
  adds P n m1 -> adds P n m2 -> adds P n (if b then m1 else m2).
Proof. destruct b; auto. Qed.

Lemma adds_more (P : event -> Prop) (n n' : nat) {A : Type} (m : io A) :
  (n <= n')%nat -> adds P n m -> adds P n' m.
Proof.
  intros Hn H w t. destruct (H w t) as [l [H1 [F L]]]. exists l.
  repeat split; [exact H1 | exact F | lia].
Qed.

Lemma adds_get_draftset (self : PublishMyData) (i u : pyval)
  (file : option string) :
  adds (drafter_event self.(access_token) file) 1 (get_draftset self i u).
Proof.
  unfold get_draftset.
  apply (adds_bind _ 0 1); [apply adds_keeps, keeps_assert | | lia].
  intros _. apply (adds_bind _ 1 0); [| | lia].
  - apply adds_send. split; reflexivity.
  - intros resp. apply adds_keeps. apply keeps_if; auto 10 with io_log.
Qed.

Lemma adds_refetch (self : Draftset) (resp : response)
  (file : option string) :
  adds (drafter_event self.(_requester).(access_token) file) 1
    (if (status_code resp =? 200)%Z
     then get_draftset self.(_requester) self.(id) (PyBool false)
     else raise_for resp).
Proof.
  apply adds_if; [apply adds_get_draftset |].
  apply (adds_more _ 0); [lia |]. apply adds_keeps, keeps_raise_for.
Qed.

(** X14. Every request that an operation makes goes to a draftset URL of
    the staging host and carries the session's access token as a bearer
    credential; the only file ever opened is the one [append_data] is
    given.  No operation makes more than two effects: one request for
    [get_draftsets], [get_draftset], [delete] and [publish]; the request
    and the refetch for [create_draftset], [claim] and [submit_to]; the
    file and the request for [append_data].  Nothing is retried. *)
Theorem operations_send_to_drafter
  (s : PublishMyData) (d : Draftset) :
  let P := drafter_event s.(access_token) None in
  let Q := drafter_event d.(_requester).(access_token) in
  (forall i u, adds P 1 (get_draftsets s i u))
  /\ (forall i u, adds P 1 (get_draftset s i u))
  /\ (forall n e u, adds P 2 (create_draftset s n e u))
  /\ (forall m, adds (Q None) 1 (delete d m))
  /\ adds (Q None) 2 (claim d)
  /\ (forall r u, adds (Q None) 2 (submit_to d r u))
  /\ (forall m, adds (Q None) 1 (publish d m))
  /\ (forall f e c g m x, adds (Q (Some f)) 2 (append_data d f e c g m x)).
Proof.
  intros P Q. repeat match goal with |- _ /\ _ => split end.
  - intros i u. unfold get_draftsets.
    apply (adds_bind _ 0 1); [apply adds_keeps, keeps_assert | | lia].
    intros _.
    apply (adds_bind _ 0 1); [apply adds_keeps, keeps_assert | | lia].
    intros _. apply (adds_bind _ 1 0); [| | lia].
    + apply adds_send. split; reflexivity.
    + intros resp. apply adds_keeps. apply keeps_if; [| auto with io_log].
      apply keeps_bind; [auto with io_log |]. intros data.
      apply keeps_bind; [apply keeps_py_iter |]. intros items.
      apply keeps_for_each. auto with io_log.
  - intros i u. apply adds_get_draftset.
  - intros n e u. unfold create_draftset.
    apply (adds_bind _ 1 1); [| | lia].
    + apply adds_send. split; reflexivity.
    + intros resp. apply adds_if.
      * apply (adds_bind _ 0 1);
          [apply adds_keeps, keeps_or_raise | | lia].
        intros location. apply (adds_bind _ 0 1);
          [apply adds_keeps, keeps_or_raise | | lia].
        intros draftset_id. apply adds_get_draftset.
      * apply (adds_more _ 0); [lia |]. apply adds_keeps, keeps_raise_for.
  - intros m. unfold delete. apply (adds_bind _ 1 0); [| | lia].
    + apply adds_send. split; reflexivity.
    + intros resp. apply adds_keeps. apply keeps_if; auto with io_log.
  - unfold claim. apply (adds_bind _ 1 1); [| | lia].
    + apply adds_send. split; reflexivity.
    + intros resp. apply adds_refetch.
  - intros r u. unfold submit_to.
    do 3 (apply (adds_bind _ 0 2);
          [apply adds_keeps, keeps_assert | intros _ | lia]).
    apply (adds_bind _ 1 1); [| | lia].
    + apply adds_send. split; reflexivity.
    + intros resp. apply adds_refetch.
  - intros m. unfold publish. apply (adds_bind _ 1 0); [| | lia].
    + apply adds_send. split; reflexivity.
    + intros resp. apply adds_keeps, keeps_ret.
  - intros f e c g m x. unfold append_data.
    do 3 (apply (adds_bind _ 0 2);
          [apply adds_keeps, keeps_assert | intros _ | lia]).
    apply (adds_bind _ 0 2); [| | lia].
    { apply adds_keeps. apply keeps_if; [| apply keeps_ret].
      unfold extension_map_getitem. apply keeps_or_raise. }
    intros c'. apply (adds_bind _ 0 2); [| | lia].
    { apply adds_keeps. apply keeps_if; [apply keeps_assert | apply keeps_ret]. }
    intros _. apply (adds_bind _ 0 2);
      [apply adds_keeps, keeps_assert | intros _ | lia].
    apply (adds_bind _ 1 1); [| | lia].
    + apply adds_open_read. reflexivity.
    + intros rdf. apply (adds_bind _ 1 0); [| | lia].
      * apply adds_send. split; reflexivity.
      * intros resp. apply adds_keeps, keeps_ret.
Qed.

(** ** The credentials *)

Lemma token_Draftset_init (f1 f2 : Draftset) :
  same_record f1 f2 ->
  base_url_blind same_record (Draftset_init f1) (Draftset_init f2).
Proof.
  intros H. unfold Draftset_init, Draftset_post_init.
  assert (E : f1.(type) = f2.(type)) by apply H. rewrite E.
  apply blind_after. intros _. apply blind_ret. exact H.
Qed.

Lemma token_Draftset_of_json (s1 s2 : PublishMyData) (d : json) :
  same_token s1 s2 ->
  base_url_blind same_record (Draftset_of_json s1 d) (Draftset_of_json s2 d).
Proof.
  intros H. unfold Draftset_of_json.
  do 5 (apply blind_after; intros ?).
  apply token_Draftset_init. unfold same_record. cbn. tauto.
Qed.

Lemma token_for_each (s1 s2 : PublishMyData) (items : list json) :
  same_token s1 s2 ->
  base_url_blind (Forall2 same_record)
    (for_each (Draftset_of_json s1) items)
    (for_each (Draftset_of_json s2) items).
Proof.
  intros H. induction items as [| d rest IH]; cbn [for_each].
  - apply blind_ret. constructor.
  - apply (blind_bind same_record); [apply token_Draftset_of_json, H |].
    intros x1 x2 Hx.
    apply (blind_bind (Forall2 same_record)); [exact IH |].
    intros xs1 xs2 Hxs. apply blind_ret. constructor; assumption.
Qed.

Lemma same_token_requests (s1 s2 : PublishMyData) :
  same_token s1 s2 ->
  (forall i u, get_draftsets_request s1 i u = get_draftsets_request s2 i u)
  /\ (forall i u, get_draftset_request s1 i u = get_draftset_request s2 i u)
  /\ (forall n d u,
        create_draftset_request s1 n d u = create_draftset_request s2 n d u).
Proof.
  unfold same_token. intros H.
  unfold get_draftsets_request, get_draftset_request,
    create_draftset_request.
  rewrite H. repeat split.
Qed.

Lemma same_target_requests (d1 d2 : Draftset) :
  same_target d1 d2 ->
  (forall m, delete_request d1 m = delete_request d2 m)
  /\ claim_request d1 = claim_request d2
  /\ (forall r u, submit_to_request d1 r u = submit_to_request d2 r u)
  /\ (forall m, publish_request d1 m = publish_request d2 m)
  /\ (forall c g m e rdf,
        append_data_request d1 c g m e rdf
        = append_data_request d2 c g m e rdf).
Proof.
  unfold same_target, same_token. intros [Ht Hi].
  unfold delete_request, claim_request, submit_to_request, publish_request,
    append_data_request, draftset_url.
  rewrite Ht, Hi. repeat split.
Qed.

Lemma token_get_draftset (s1 s2 : PublishMyData) (i u : pyval) :
  same_token s1 s2 ->
  base_url_blind same_record (get_draftset s1 i u) (get_draftset s2 i u).
Proof.
  intros H. unfold get_draftset.
  destruct (same_token_requests _ _ H) as [_ [E _]]. rewrite E.
  do 2 (apply blind_after; intros ?).
  apply blind_if; [| apply blind_raise_for].
  apply blind_after. intros data. apply token_Draftset_of_json, H.
Qed.

Lemma token_refetch (d1 d2 : Draftset) (resp : response) :
  same_target d1 d2 ->
  base_url_blind same_record
    (if (status_code resp =? 200)%Z
     then get_draftset d1.(_requester) d1.(id) (PyBool false)
     else raise_for resp)
    (if (status_code resp =? 200)%Z
     then get_draftset d2.(_requester) d2.(id) (PyBool false)
     else raise_for resp).
Proof.
  intros [Ht Hi]. apply blind_if; [| apply blind_raise_for].
  rewrite Hi. apply token_get_draftset, Ht.
Qed.

(** X15. Of a session, the operations use the access token and nothing
    else; of a handle, its id and the token of its session and nothing
    else.  Two sessions with the same token, whatever their client id,
    client secret and base URL, and two handles with the same id on such
    sessions, whatever their other fields, make the same requests in every
    world and end with the same exception or with the same records.  So
    the client id and the client secret reach no request but the one of
    authentication. *)
Theorem operations_use_token_only
  (s1 s2 : PublishMyData) (d1 d2 : Draftset) :
  same_token s1 s2 ->
  same_target d1 d2 ->
  (forall i u w t, same_outcome (Forall2 same_record)
                     (get_draftsets s1 i u w t) (get_draftsets s2 i u w t))
  /\ (forall i u w t, same_outcome same_record
                        (get_draftset s1 i u w t) (get_draftset s2 i u w t))
  /\ (forall n d u w t, same_outcome same_record
                          (create_draftset s1 n d u w t)
                          (create_draftset s2 n d u w t))
  /\ (forall m w t, same_outcome eq (delete d1 m w t) (delete d2 m w t))
  /\ (forall w t, same_outcome same_record (claim d1 w t) (claim d2 w t))
  /\ (forall r u w t, same_outcome same_record
                        (submit_to d1 r u w t) (submit_to d2 r u w t))
  /\ (forall m w t, same_outcome eq (publish d1 m w t) (publish d2 m w t))
  /\ (forall f e c g m x w t,
        same_outcome eq (append_data d1 f e c g m x w t)
                        (append_data d2 f e c g m x w t)).
Proof.
  intros Hs Hd.
  destruct (same_token_requests _ _ Hs) as [E1 [E2 E3]].
  destruct (same_target_requests _ _ Hd) as [F1 [F2 [F3 [F4 F5]]]].
  repeat match goal with |- _ /\ _ => split end.
  - intros i u. change (base_url_blind (Forall2 same_record)
                          (get_draftsets s1 i u) (get_draftsets s2 i u)).
    unfold get_draftsets. rewrite E1.
    do 3 (apply blind_after; intros ?).
    apply blind_if; [| apply blind_raise_for].
    do 2 (apply blind_after; intros ?).
    apply token_for_each, Hs.
  - intros i u. apply token_get_draftset, Hs.
  - intros n d u. change (base_url_blind same_record
                            (create_draftset s1 n d u)
                            (create_draftset s2 n d u)).
    unfold create_draftset. rewrite E3.
    apply blind_after. intros resp.
    apply blind_if; [| apply blind_raise_for].
    do 2 (apply blind_after; intros ?).
    apply token_get_draftset, Hs.
  - intros m. change (base_url_blind eq (delete d1 m) (delete d2 m)).
    unfold delete. rewrite F1. apply blind_refl. reflexivity.
  - change (base_url_blind same_record (claim d1) (claim d2)).
    unfold claim. rewrite F2. apply blind_after. intros resp.
    apply token_refetch, Hd.
  - intros r u. change (base_url_blind same_record (submit_to d1 r u)
                                       (submit_to d2 r u)).
    unfold submit_to. rewrite F3.
    do 4 (apply blind_after; intros ?). apply token_refetch, Hd.
  - intros m. change (base_url_blind eq (publish d1 m) (publish d2 m)).
    unfold publish. rewrite F4. apply blind_refl. reflexivity.
  - intros f e c g m x.
    change (base_url_blind eq (append_data d1 f e c g m x)
                           (append_data d2 f e c g m x)).
    unfold append_data.
    do 7 (apply blind_after; intros ?). rewrite F5.
    apply blind_refl. reflexivity.
Qed.

Lemma operations_use_token_only_witness :
  same_outcome same_record
    (create_draftset sample_session PyNone PyNone (PyBool false)
                     creating_world [])
    (create_draftset rotated_session PyNone PyNone (PyBool false)
                     creating_world [])
  /\ same_outcome same_record
       (claim sample_draftset record_world [])
       (claim unknown_draftset record_world []).
Proof.
  assert (Hs : same_token sample_session rotated_session) by reflexivity.
  assert (Hd : same_target sample_draftset unknown_draftset)
    by (split; reflexivity).
  destruct (operations_use_token_only sample_session rotated_session
              sample_draftset unknown_draftset Hs Hd)
    as [_ [_ [Hcreate [_ [Hclaim _]]]]].
  split; [apply Hcreate | apply Hclaim].
Defined.

(** ** Re-authenticating *)

(** X16. [get_token] on an existing session authenticates with the
    credentials it is given, not with those of the session, and changes
    nothing of the session but the token: a session it returns has the
    client id, client secret and base URL it had, and the token of the
    answer. *)
Theorem get_token_replaces_token
  (self s : PublishMyData) (i c a g : pyval) (w : world) (t t' : log) :
  get_token self i c a g w t = (inr s, t') ->
  s.(client_id) = self.(client_id)
  /\ s.(client_secret) = self.(client_secret)
  /\ s.(base_url) = self.(base_url)
  /\ t' = Net (get_token_request i c a g) :: t
  /\ req_json (get_token_request i c a g)
     = Some [("client_id", i); ("client_secret", c); ("audience", a);
             ("grant_type", g)]
  /\ exists resp fields,
       server w t (get_token_request i c a g) = Some resp
       /\ status_code resp = 200%Z
       /\ json_body resp = Some (JObject fields)
       /\ dict_get "access_token" fields = Some s.(access_token).
Proof.
  unfold get_token.
  destruct (server w t (get_token_request i c a g)) as [resp |] eqn:Es;
    [rewrite (send_bind _ _ _ _ _ Es)
    | rewrite (send_bind_none _ _ _ _ Es); discriminate].
  destruct (status_code resp =? 200)%Z eqn:E200.
  - unfold response_json. io_step.
    destruct (json_body resp) as [[v | items | fields] |] eqn:Ej;
      try discriminate.
    cbn [getitem]. io_step.
    destruct (dict_get "access_token" fields) as [token |] eqn:Et;
      [| discriminate].
    intros H. injection H as <- <-. apply Z.eqb_eq in E200.
    repeat (split; [reflexivity |]). exists resp, fields. auto.
  - unfold raise_for, content_text. io_step.
    destruct (decode_utf8 (content resp)); discriminate.
Qed.

Lemma get_token_replaces_token_witness :
  get_token rotated_session (PyStr "id") (PyStr "secret")
            (PyStr "https://pmd") (PyStr "client_credentials")
            granting_world []
  = (inr rotated_session,
     [Net (get_token_request (PyStr "id") (PyStr "secret")
             (PyStr "https://pmd") (PyStr "client_credentials"))])
  /\ client_secret rotated_session = PyStr "other-secret".
Proof.
  split; [reflexivity |].
  apply (get_token_replaces_token rotated_session rotated_session
           (PyStr "id") (PyStr "secret") (PyStr "https://pmd")
           (PyStr "client_credentials") granting_world [] _ eq_refl).
Defined.

(** ** Creating a draftset: the id *)

(** X17. The id that [create_draftset] fetches is cut out of the Location
    header without a look at it: a header that ends with a slash gives the
    empty id and a GET to /v1/draftset/, and a header without any slash is
    taken whole. *)
Theorem create_draftset_id_edges
  (self : PublishMyData) (n d u : pyval) (w : world) (t : log)
  (resp : response) (location : string) :
  server w t (create_draftset_request self n d u) = Some resp ->
  status_code resp = 303%Z ->
  headers_get "location" (headers resp) = Some location ->
  ((exists prefix, location = prefix ++ "/") ->
   create_draftset self n d u w t
   = get_draftset self (PyStr "") (PyBool false) w
       (Net (create_draftset_request self n d u) :: t)
   /\ req_url (get_draftset_request self (PyStr "") (PyBool false))
      = "https://cogs-staging-drafter.publishmydata.com/v1/draftset/")
  /\ (has_char "/" location = false ->
      create_draftset self n d u w t
      = get_draftset self (PyStr location) (PyBool false) w
          (Net (create_draftset_request self n d u) :: t)).
Proof.
  intros Hs H303 Hloc. split.
  - intros [prefix ->]. split; [| reflexivity].
    apply (create_draftset_see_other _ _ _ _ _ _ resp (prefix ++ "/"));
      try assumption.
    exact (last_segment prefix "" eq_refl).
  - intros Hno.
    apply (create_draftset_see_other _ _ _ _ _ _ resp location);
      try assumption.
    unfold rsplit. rewrite (split_no_sep _ _ Hno). reflexivity.
Qed.

Lemma create_draftset_id_edges_witness :
  snd (create_draftset sample_session PyNone PyNone (PyBool false)
                       slash_world [])
  = [Net (get_draftset_request sample_session (PyStr "") (PyBool false));
     Net (create_draftset_request sample_session PyNone PyNone
                                  (PyBool false))].
Proof.
  pose proof (create_draftset_id_edges sample_session PyNone PyNone
                (PyBool false) slash_world [] see_other_slash _
                eq_refl eq_refl eq_refl) as [H _].
  rewrite (proj1 (H (ex_intro _
    "https://cogs-staging-drafter.publishmydata.com/v1/draftset/abc-123"
    eq_refl))).
  reflexivity.
Defined.

(** ** Listing draftsets: bodies that are not lists *)

Lemma code_points_nonempty (c : ascii) (s : string) :
  code_points (String c s) <> [].
Proof.
  cbn [code_points]. destruct s as [| c' s']; [discriminate |].
  destruct (code_points (String c' s')); [discriminate |].
  destruct (is_continuation c'); discriminate.
Qed.

(** X18. [get_draftsets] iterates over whatever JSON a 200 answer holds:
    an empty list, an empty object and an empty string all give the empty
    list of handles; a non-empty object or string, whose items are keys or
    characters, raises [TypeError], and so does a body that is a number, a
    boolean or null, or a list whose first item is not an object. *)
Theorem get_draftsets_body_shapes
  (self : PublishMyData) (i u : pyval) (w : world) (t : log)
  (resp : response) (data : json) :
  let req := get_draftsets_request self i u in
  py_in i [Some "owned"; Some "claimable"; Some "all"] = true ->
  is_bool u = true ->
  server w t req = Some resp ->
  status_code resp = 200%Z ->
  json_body resp = Some data ->
  ((data = JArray [] \/ data = JObject [] \/ data = JAtom (PyStr "")) ->
   get_draftsets self i u w t = (inr [], Net req :: t))
  /\ ((exists k v rest, data = JObject ((k, v) :: rest))
      \/ (exists c s, data = JAtom (PyStr (String c s)))
      \/ (exists v, data = JAtom v /\ is_str v = false)
      \/ (exists item rest,
            data = JArray (item :: rest)
            /\ forall fields, item <> JObject fields) ->
      get_draftsets self i u w t = (inl TypeError, Net req :: t)).
Proof.
  intros req Hi Hu Hs H200 Hj.
  rewrite (get_draftsets_answered _ _ _ _ _ _ Hi Hu Hs). fold req.
  apply Z.eqb_eq in H200. rewrite H200.
  unfold response_json. io_step. rewrite Hj. split.
  - intros [-> | [-> | ->]]; reflexivity.
  - intros [[k [v [rest ->]]] | [[c [s ->]] | [[v [-> Hv]] | H]]].
    + reflexivity.
    + cbn [py_iter]. io_step.
      destruct (code_points (String c s)) as [| x xs] eqn:E;
        [exfalso; exact (code_points_nonempty _ _ E) | reflexivity].
    + destruct v; try reflexivity. discriminate.
    + destruct H as [item [rest [-> Hno]]]. cbn [py_iter for_each]. io_step.
      destruct item as [v | items | fields]; try reflexivity.
      exfalso. exact (Hno fields eq_refl).
Qed.

Lemma get_draftsets_body_shapes_witness :
  get_draftsets sample_session (PyStr "all") (PyBool false)
                (json_world (JObject [])) []
  = (inr [],
     [Net (get_draftsets_request sample_session (PyStr "all")
                                 (PyBool false))])
  /\ get_draftsets sample_session (PyStr "all") (PyBool false)
                   (json_world (JObject [("error", PyStr "x")])) []
     = (inl TypeError,
        [Net (get_draftsets_request sample_session (PyStr "all")
                                    (PyBool false))]).
Proof.
  split.
  - apply (proj1 (get_draftsets_body_shapes sample_session (PyStr "all")
                    (PyBool false) (json_world (JObject [])) [] _ _
                    eq_refl eq_refl eq_refl eq_refl eq_refl)).
    right. left. reflexivity.
  - apply (proj2 (get_draftsets_body_shapes sample_session (PyStr "all")
                    (PyBool false)
                    (json_world (JObject [("error", PyStr "x")])) [] _ _
                    eq_refl eq_refl eq_refl eq_refl eq_refl)).
    left. exists "error", (PyStr "x"), []. reflexivity.
Defined.

(** ** Submitting: the three checks *)

(** X19. [submit_to] sends its request exactly when its three checks hold:
    the role is "editor", "publisher", "manager" or [None], the user is a
    [str] or [None], and exactly one of the two is true.  In every other
    case, a role outside the list or a user of another type included, it
    raises [AssertionError] before any request. *)
Theorem submit_to_checks
  (self : Draftset) (role user : pyval) (w : world) (t : log) :
  let ok := py_in role submit_to_roles
            && (is_str user || is_none user)
            && xorb (truthy role) (truthy user) in
  (first_effect (submit_to self role user)
                (Net (submit_to_request self role user)) w t
   <-> ok = true)
  /\ (fails_before_io (submit_to self role user) AssertionError w t
      <-> ok = false).
Proof.
  intros ok.
  assert (Hsend : ok = true ->
                  first_effect (submit_to self role user)
                    (Net (submit_to_request self role user)) w t).
  { intros H. apply andb_prop in H. destruct H as [H H3].
    apply andb_prop in H. destruct H as [H1 H2].
    apply submit_to_sends; assumption. }
  assert (Hfail : ok = false ->
                  fails_before_io (submit_to self role user)
                                  AssertionError w t).
  { unfold ok, submit_to, submit_to_roles. intros H.
    destruct (py_in role _); [| apply assert_false_fails; reflexivity].
    apply assert_true_fails; [reflexivity |].
    destruct (is_str user || is_none user);
      [| apply assert_false_fails; reflexivity].
    apply assert_true_fails; [reflexivity |].
    apply assert_false_fails. exact H. }
  split; split; auto.
  - intros Hfe. destruct ok eqn:E; [reflexivity |].
    exfalso. exact (first_effect_not_fails _ _ _ _ _ Hfe (Hfail eq_refl)).
  - intros Hf. destruct ok eqn:E; [| reflexivity].
    exfalso. exact (first_effect_not_fails _ _ _ _ _ (Hsend eq_refl) Hf).
Qed.

Lemma submit_to_checks_witness :
  fails_before_io (submit_to sample_draftset (PyStr "admin") PyNone)
                  AssertionError quiet_world []
  /\ fails_before_io (submit_to sample_draftset PyNone (PyOther "42" true))
                     AssertionError quiet_world [].
Proof.
  split.
  - apply (proj2 (submit_to_checks sample_draftset (PyStr "admin") PyNone
                    quiet_world [])).
    reflexivity.
  - apply (proj2 (submit_to_checks sample_draftset PyNone
                    (PyOther "42" true) quiet_world [])).
    reflexivity.
Defined.
